(** * The IP-trust / session-authentication core of the accounts app

    A shallow embedding of [src/apps/accounts/dependencies.py] and of the
    parts of [src/apps/accounts/services.py] that write the IP tables,
    followed by the properties of the bearer verifier and of the identity
    resolver. *)

From Stdlib Require Import ZArith Ascii.
From stdpp Require Import base option list strings gmap.

(** ** Python values *)

(** The values a decoded token (a JSON object) can hold.  A [dict] is a
    finite map with string keys. *)
#[warnings="-register-all"]
Inductive pyval : Type :=
| VNone
| VBool (b : bool)
| VInt (n : Z)
| VStr (s : string)
| VDict (d : gmap string pyval).

Abbreviation pydict := (gmap string pyval).

(** Emptiness of a string, as Python's [if s:] sees it. *)
Definition str_truthy (s : string) : bool :=
  match s with
  | EmptyString => false
  | String _ _ => true
  end.

(** Python's truth value of an object. *)
Definition truthy (v : pyval) : bool :=
  match v with
  | VNone => false
  | VBool b => b
  | VInt n => negb (n =? 0)%Z
  | VStr s => str_truthy s
  | VDict d => negb (Nat.eqb (size d) 0)
  end.

Definition dict_truthy (d : pydict) : bool := truthy (VDict d).

(** ** Exceptions *)

(** The domain errors of [src/errors.py] that the modelled code raises,
    and the built-in exceptions its expressions can raise. *)
Inductive exn : Type :=
| InvalidToken
| AccessTokenRequired
| RefreshTokenRequired
| UserAlreadyExists
| UserNotFound
| UnknownIpConflict
| BannedIp
| ProxyConflict
| UserBlocked
| InsufficientPermission
| HTTPException (status : Z)
| KeyError (key : string)
| TypeError
| AttributeError
| NotImplementedError
| DataError
| IntegrityError
| ClientError
| RedisError.

Global Instance exn_eq_dec : EqDecision exn.
Proof. solve_decision. Defined.

(** A computation either returns or raises. *)
Inductive result (A : Type) : Type :=
| Ok (a : A)
| Raise (e : exn).
Arguments Ok {A} a.
Arguments Raise {A} e.

Global Instance result_ret : MRet result := fun A a => Ok a.
Global Instance result_bind : MBind result := fun A B k m =>
  match m with
  | Ok a => k a
  | Raise e => Raise e
  end.

(** [d[key]] on a dict. *)
Definition getitem (d : pydict) (key : string) : result pyval :=
  match d !! key with
  | Some v => Ok v
  | None => Raise (KeyError key)
  end.

(** [v[key]] with a string key on an arbitrary value: only a dict can be
    indexed so. *)
Definition subscript (v : pyval) (key : string) : result pyval :=
  match v with
  | VDict d => getitem d key
  | _ => Raise TypeError
  end.

(** ** Requests *)

(** What the code reads of a request: the headers (names lower-cased, as
    the framework's case-insensitive lookup sees them), the host name of
    the URL, and the host of the transport peer, [request.client] being
    [None] when the server knows no peer. *)
Record Request : Type := mkRequest {
  headers : gmap string string;
  url_hostname : option string;
  client : option string
}.

(** ** The bearer verifier *)

Inductive bearer : Type :=
| TokenBearer
| AccessTokenBearer
| RefreshTokenBearer.

(** [verify_token_data], as each class defines it. *)
Definition verify_token_data (self : bearer) (token_data : pydict) : result unit :=
  match self with
  | TokenBearer => Raise NotImplementedError
  | AccessTokenBearer =>
      if dict_truthy token_data then
        refresh ← getitem token_data "refresh";
        if truthy refresh then Raise AccessTokenRequired else Ok tt
      else Ok tt
  | RefreshTokenBearer =>
      if dict_truthy token_data then
        refresh ← getitem token_data "refresh";
        if negb (truthy refresh) then Raise RefreshTokenRequired else Ok tt
      else Ok tt
  end.

Section Verifier.

(** [HTTPBearer.__call__] of the framework: the credentials of the
    [Authorization] header, or the framework's own rejection. *)
Variable http_bearer : Request -> result string.
(** [src.utils.hashing.decode_token]: the claims, or [None]. *)
Variable decode_token : string -> option pydict.
(** [src.db.redis.token_in_blocklist]. *)
Variable token_in_blocklist : pyval -> bool.

Definition token_valid (token : string) : bool :=
  match decode_token token with
  | Some _ => true
  | None => false
  end.

(** [TokenBearer.__call__]. *)
Definition bearer_call (self : bearer) (request : Request) : result pydict :=
  token ← http_bearer request;
  match decode_token token with
  | None => Raise InvalidToken
  | Some token_data =>
      let token_is_valid := token_valid token in
      jti ← getitem token_data "jti";
      let blocked := token_in_blocklist jti in
      if negb token_is_valid then Raise InvalidToken
      else if blocked then Raise InvalidToken
      else
        _ ← verify_token_data self token_data;
        Ok token_data
  end.

End Verifier.

(** ** The client address *)

(** [s.split(',')[0]]: the text before the first comma. *)
Fixpoint first_field (s : string) : string :=
  match s with
  | EmptyString => EmptyString
  | String c rest =>
      if Ascii.eqb c ","%char then EmptyString else String c (first_field rest)
  end.

(** [str.isspace] on one character of a header value (a code point below
    256): the ASCII white space, the separators 28 to 31, NEL and the
    no-break space. *)
Definition py_isspace (c : ascii) : bool :=
  let n := nat_of_ascii c in
  ((9 <=? n) && (n <=? 13)) || ((28 <=? n) && (n <=? 32))
  || (n =? 133) || (n =? 160).

Fixpoint lstrip (s : string) : string :=
  match s with
  | EmptyString => EmptyString
  | String c rest => if py_isspace c then lstrip rest else s
  end.

Fixpoint rstrip (s : string) : string :=
  match s with
  | EmptyString => EmptyString
  | String c rest =>
      match rstrip rest with
      | EmptyString => if py_isspace c then EmptyString else String c EmptyString
      | kept => String c kept
      end
  end.

(** [s.strip()]. *)
Definition strip (s : string) : string := rstrip (lstrip s).

(** Truth value of an [Optional[str]]. *)
Definition opt_truthy (o : option string) : bool :=
  match o with
  | Some s => str_truthy s
  | None => false
  end.

(** [x or y] on [Optional[str]] values. *)
Definition py_or (x y : option string) : option string :=
  if opt_truthy x then x else y.

Definition recognized_hosts : list string :=
  ["localhost"; "api.jeremiahedavid.online"; "api.jeremiahedavid.com.ng"].

(** [request.url.hostname in [...]]. *)
Definition hostname_recognized (request : Request) : bool :=
  match url_hostname request with
  | Some h => bool_decide (h ∈ recognized_hosts)
  | None => false
  end.

(** [request.client.host]. *)
Definition client_host (request : Request) : result string :=
  match client request with
  | Some host => Ok host
  | None => Raise AttributeError
  end.

(** [get_ip_address].  The default of [headers.get("X-Real-IP", ...)] is
    an argument, so [request.client.host] is evaluated whether or not the
    header is there. *)
Definition get_ip_address (request : Request) : result (option string) :=
  let ip := headers request !! "next-ip" in
  ip ← (if bool_decide (ip = None) && hostname_recognized request then
          let ip := headers request !! "x-forwarded-for" in
          match ip with
          | Some forwarded =>
              if str_truthy forwarded
              then Ok (Some (strip (first_field forwarded)))
              else
                peer ← client_host request;
                Ok (Some (default peer (headers request !! "x-real-ip")))
          | None =>
              peer ← client_host request;
              Ok (Some (default peer (headers request !! "x-real-ip")))
          end
        else Ok ip);
  Ok (py_or ip (Some "127.0.0.1")).

(** ** The relational stores *)

Abbreviation UUID := N.

Module User.
(** The columns of [users] that the modelled code reads or writes. *)
Record t : Type := mk {
  uid : UUID;
  email : string;
  passwordHash : string;
  country : option string;
  countryCode : option string;
  countryCallingCode : option string;
  currency : option string;
  inEu : bool;
  isBlocked : bool;
  isCompany : bool;
  isSuperuser : bool
}.
End User.

Module KnownIps.
Record t : Type := mk {
  uid : UUID;
  ip : string;
  userUid : option UUID
}.
End KnownIps.

Module BannedIps.
Record t : Type := mk {
  uid : UUID;
  ip : string;
  userUid : option UUID
}.
End BannedIps.

(** The three tables, each in the order in which an unordered [select]
    yields its rows. *)
Record DB : Type := mkDB {
  users : list User.t;
  known_ips : list KnownIps.t;
  banned_ips : list BannedIps.t
}.

(** A computation on a session: it returns or raises, and leaves what it
    has committed. *)
Definition session (A : Type) : Type := DB -> result A * DB.

Global Instance session_ret : MRet session := fun A a db => (Ok a, db).
Global Instance session_bind : MBind session := fun A B k m db =>
  match m db with
  | (Ok a, db') => k a db'
  | (Raise e, db') => (Raise e, db')
  end.

Definition raise {A} (e : exn) : session A := fun db => (Raise e, db).

(** A step that does not touch the session. *)
Definition lift {A} (r : result A) : session A := fun db => (r, db).

(** [(await session.exec(select(T).where(...))).first()]. *)
Definition select_first {R} (table : DB -> list R) (cond : R -> Prop)
    `{!forall r, Decision (cond r)} : session (option R) :=
  fun db => (Ok (head (filter cond (table db))), db).

(** [users.uid] is a foreign key of the IP tables. *)
Definition user_ref_ok (db : DB) (ref : option UUID) : Prop :=
  match ref with
  | Some u => u ∈ User.uid <$> users db
  | None => True
  end.

Global Instance user_ref_ok_dec db ref : Decision (user_ref_ok db ref).
Proof. destruct ref; simpl; apply _. Defined.

(** [session.add(row); await session.commit()] on [users] and on
    [known_ips]: the row is appended unless a key constraint of the table
    refuses it. *)
Definition insert_user (row : User.t) : session unit := fun db =>
  if decide (User.uid row ∈ User.uid <$> users db
             \/ User.email row ∈ User.email <$> users db)
  then (Raise IntegrityError, db)
  else (Ok tt, mkDB (users db ++ [row]) (known_ips db) (banned_ips db)).

Definition insert_known_ip (row : KnownIps.t) : session unit := fun db =>
  if decide (KnownIps.uid row ∈ KnownIps.uid <$> known_ips db
             \/ ¬ user_ref_ok db (KnownIps.userUid row))
  then (Raise IntegrityError, db)
  else (Ok tt, mkDB (users db) (known_ips db ++ [row]) (banned_ips db)).

(** [await session.delete(row); await session.commit()] on [banned_ips]:
    the row of that primary key goes. *)
Definition delete_banned_ip (row : BannedIps.t) : session unit := fun db =>
  (Ok tt,
   mkDB (users db) (known_ips db)
        (filter (fun b => BannedIps.uid b ≠ BannedIps.uid row) (banned_ips db))).

(** ** Identity and trust resolution *)

(** [does_ip_exist]. *)
Definition does_ip_exist (user : User.t) (request : Request) : session unit :=
  ip ← lift (get_ip_address request);
  new_ip ← select_first known_ips
    (fun k => KnownIps.userUid k = Some (User.uid user) /\ Some (KnownIps.ip k) = ip);
  match new_ip with
  | None => raise UnknownIpConflict
  | Some _ =>
      banned_ip ← select_first banned_ips
        (fun b => Some (BannedIps.ip b) = ip /\ BannedIps.userUid b = Some (User.uid user));
      match banned_ip with
      | Some _ => raise BannedIp
      | None => mret tt
      end
  end.

(** [does_user_exist]. *)
Definition does_user_exist (email : option string) (uid : option UUID)
    (request : Request) : session User.t :=
  db_result ←
    match email with
    | Some e => select_first users (fun u => User.email u = e)
    | None => select_first users (fun u => Some (User.uid u) = uid)
    end;
  match db_result with
  | None => raise UserNotFound
  | Some user =>
      _ ← does_ip_exist user request;
      mret user
  end.

(** A claim value passed where [does_user_exist] takes an [Optional[str]]:
    a string or [None]; the database driver refuses a query argument of
    another type. *)
Definition as_optional_str (v : pyval) : result (option string) :=
  match v with
  | VStr s => Ok (Some s)
  | VNone => Ok None
  | _ => Raise DataError
  end.

(** [get_current_user], on the claims the access verifier returned. *)
Definition get_current_user (token_details : pydict) (request : Request)
    : session User.t :=
  user_claims ← lift (getitem token_details "user");
  user_email ← lift (subscript user_claims "email");
  email ← lift (as_optional_str user_email);
  user ← does_user_exist email None request;
  if User.isBlocked user then raise UserBlocked else mret user.

(** [permission_check]. *)
Definition permission_check (current_user : User.t) : result User.t :=
  if negb (User.isCompany current_user) || negb (User.isSuperuser current_user)
  then Raise InsufficientPermission
  else Ok current_user.

(** ** The services that write the stores *)

Module LocationSchema.
Record t : Type := mk {
  ip : option string;
  city : option string;
  region : option string;
  country : option string;
  country_code : option string;
  country_calling_code : option string;
  currency : option string;
  in_eu : bool
}.
End LocationSchema.

Module UserCreateOrLoginSchema.
Record t : Type := mk {
  email : string;
  password : string
}.
End UserCreateOrLoginSchema.

(** [UserService.get_user_by_email_or_uid]. *)
Definition get_user_by_email_or_uid (email : option string) (uid : option UUID)
    : session (option User.t) :=
  match email, uid with
  | Some e, _ => select_first users (fun u => User.email u = e)
  | None, Some i => select_first users (fun u => User.uid u = i)
  | None, None => mret None
  end.

(** [UserService.add_allowed_ip]; [new_uid] is the key that the column
    default draws for the new row.  Appending the row to [user.knownIps]
    and the second commit write nothing more: the row already carries
    the user's key. *)
Definition add_allowed_ip (user : User.t) (ip : string) (new_uid : UUID)
    : session User.t :=
  let new_ip := KnownIps.mk new_uid ip (Some (User.uid user)) in
  _ ← insert_known_ip new_ip;
  mret user.

(** [UserService.remove_banned_ip]. *)
Definition remove_banned_ip (user : User.t) (ip : string) : session unit :=
  banned_ip ← select_first banned_ips
    (fun b => BannedIps.ip b = ip /\ BannedIps.userUid b = Some (User.uid user));
  match banned_ip with
  | Some row => delete_banned_ip row
  | None => mret tt
  end.

Section Registration.

(** [get_location]: the answer of the external location service, or
    [None] when the HTTP client fails. *)
Variable get_location : string -> option LocationSchema.t.
(** [src.utils.hashing.generateHashKey]. *)
Variable generateHashKey : string -> string.
(** The code that [generate_verification_code] draws. *)
Variable verification_code : string.
(** [src.db.redis.store_verification_code]: whether the write to
    Redis went through. *)
Variable store_verification_code : UUID -> string -> bool.

(** [UserService.register_new_user]; [user_uid] and [ip_uid] are the
    keys that the column defaults draw for the two new rows. *)
Definition register_new_user (permission : string)
    (form_data : UserCreateOrLoginSchema.t) (request : Request)
    (user_uid ip_uid : UUID) : session string :=
  user ← get_user_by_email_or_uid
            (Some (UserCreateOrLoginSchema.email form_data)) None;
  ip ← lift (get_ip_address request);
  match ip with
  | None => raise ProxyConflict
  | Some ip =>
      match user with
      | Some _ => raise UserAlreadyExists
      | None =>
          let passwordHash :=
            generateHashKey (UserCreateOrLoginSchema.password form_data) in
          let isCompany :=
            bool_decide (permission = "company")
            || bool_decide (permission = "superuser") in
          let isSuperuser := bool_decide (permission = "superuser") in
          location ← lift (from_option Ok (Raise ClientError) (get_location ip));
          let new_user :=
            User.mk user_uid (UserCreateOrLoginSchema.email form_data)
              passwordHash
              (LocationSchema.country location)
              (LocationSchema.country_code location)
              (LocationSchema.country_calling_code location)
              (LocationSchema.currency location)
              (LocationSchema.in_eu location)
              false isCompany isSuperuser in
          _ ← insert_user new_user;
          _ ← insert_known_ip (KnownIps.mk ip_uid ip (Some user_uid));
          _ ← lift (if store_verification_code user_uid verification_code
                    then Ok tt else Raise RedisError);
          mret verification_code
      end
  end.

End Registration.

(** ** The rest of the user service *)

(** [UserService.remove_user]: [session.delete(user)] and the commit.
    The relationships of [User] cascade ("all, delete-orphan"), so the
    IP rows of the user go with the row of the user. *)
Definition remove_user (user : User.t) : session unit := fun db =>
  (Ok tt,
   mkDB (filter (fun u => User.uid u ≠ User.uid user) (users db))
        (filter (fun k => KnownIps.userUid k ≠ Some (User.uid user))
                (known_ips db))
        (filter (fun b => BannedIps.userUid b ≠ Some (User.uid user))
                (banned_ips db))).

(** [session.add(row); await session.commit()] on [banned_ips]. *)
Definition insert_banned_ip (row : BannedIps.t) : session unit := fun db =>
  if decide (BannedIps.uid row ∈ BannedIps.uid <$> banned_ips db
             \/ ¬ user_ref_ok db (BannedIps.userUid row))
  then (Raise IntegrityError, db)
  else (Ok tt, mkDB (users db) (known_ips db) (banned_ips db ++ [row])).

Section Banning.

(** What [user.knownIps.append(new_ip)] on a row of [BannedIps] and the
    commit after it come to: the mapper accepts the row of the other
    table in the collection, which writes nothing more, or raises. *)
Variable append_to_known_ips : result unit.

(** [UserService.add_banned_ip]; [new_uid] is the key that the column
    default draws for the new row.  The row is committed before the
    append. *)
Definition add_banned_ip (user : User.t) (ip : string) (new_uid : UUID)
    : session User.t :=
  let new_ip := BannedIps.mk new_uid ip (Some (User.uid user)) in
  _ ← insert_banned_ip new_ip;
  _ ← lift append_to_known_ips;
  mret user.

End Banning.

(** The exceptions of [authenticate_user]: those of the resolver, and
    [InvalidCredentials] of [src/errors.py]. *)
Inductive login_exn : Type :=
| Resolution (e : exn)
| InvalidCredentials.

Inductive login_result (A : Type) : Type :=
| LoggedIn (a : A)
| Refused (e : login_exn).
Arguments LoggedIn {A} a.
Arguments Refused {A} e.

Definition login (A : Type) : Type := DB -> login_result A * DB.

Global Instance login_ret : MRet login := fun A a db => (LoggedIn a, db).
Global Instance login_bind : MBind login := fun A B k m db =>
  match m db with
  | (LoggedIn a, db') => k a db'
  | (Refused e, db') => (Refused e, db')
  end.

(** A step of the resolver inside [authenticate_user]. *)
Definition resolve {A} (m : session A) : login A := fun db =>
  match m db with
  | (Ok a, db') => (LoggedIn a, db')
  | (Raise e, db') => (Refused (Resolution e), db')
  end.

Definition refuse {A} (e : login_exn) : login A := fun db => (Refused e, db).

Section Authentication.

(** [src.utils.hashing.verifyHashKey]. *)
Variable verifyHashKey : string -> string -> bool.

(** [UserService.authenticate_user]. *)
Definition authenticate_user (form_data : UserCreateOrLoginSchema.t)
    (request : Request) : login User.t :=
  user ← resolve (get_user_by_email_or_uid
                    (Some (UserCreateOrLoginSchema.email form_data)) None);
  match user with
  | None => refuse (Resolution UserNotFound)
  | Some user =>
      _ ← resolve (does_ip_exist user request);
      let valid_password :=
        verifyHashKey (UserCreateOrLoginSchema.password form_data)
                      (User.passwordHash user) in
      if negb valid_password then refuse InvalidCredentials else mret user
  end.

End Authentication.

(** ** The views that manage the IP rows *)

(** The guard of the views on [/{uid}]:
    [user.uid != uid and not user.isSuperuser]. *)
Definition not_permitted (user : User.t) (uid : UUID) : bool :=
  bool_decide (User.uid user ≠ uid) && negb (User.isSuperuser user).

(** A service called on the outcome of [get_user_by_email_or_uid]: on
    [None] the first [user.uid] raises. *)
Definition on_user {A} (target : option User.t) (service : User.t -> session A)
    : session A :=
  match target with
  | Some user => service user
  | None => raise AttributeError
  end.

(** [get_user_profile], on the user that [get_current_user] resolved. *)
Definition get_user_profile (uid : UUID) (user : User.t)
    : session (option User.t) :=
  if not_permitted user uid then raise InsufficientPermission
  else get_user_by_email_or_uid None (Some uid).

(** [add_new_ip_address]. *)
Definition add_new_ip_address (uid : UUID) (form_ip : string) (new_uid : UUID)
    (user : User.t) : session pydict :=
  if not_permitted user uid then raise InsufficientPermission
  else
    user_to_add_ip ← get_user_by_email_or_uid None (Some uid);
    _ ← on_user user_to_add_ip (fun target => add_allowed_ip target form_ip new_uid);
    mret {[ "message" := VStr (form_ip +:+ " added to known IPs") ]}.

(** [unban_new_ip_address]. *)
Definition unban_new_ip_address (uid : UUID) (ip : string) (user : User.t)
    : session pydict :=
  if not_permitted user uid then raise InsufficientPermission
  else
    user_to_add_ip ← get_user_by_email_or_uid None (Some uid);
    _ ← on_user user_to_add_ip (fun target => remove_banned_ip target ip);
    mret {[ "message" := VStr (ip +:+ " has been unbanned successfully") ]}.

(** The route [POST /{uid}/allow-ips]: the framework resolves the
    dependency [get_current_user] on the claims of the access verifier,
    then calls the view. *)
Definition allow_ips_route (token_details : pydict) (request : Request)
    (uid : UUID) (form_ip : string) (new_uid : UUID) : session pydict :=
  user ← get_current_user token_details request;
  add_new_ip_address uid form_ip new_uid user.

(** ** The response to an unknown address *)

Record JSONResponse : Type := mkJSONResponse {
  status_code : Z;
  content : pydict
}.

(** An [Optional[str]] as a value, and inside an f-string. *)
Definition optional_str (o : option string) : pyval :=
  match o with
  | Some s => VStr s
  | None => VNone
  end.

Definition format_optional_str (o : option string) : string :=
  match o with
  | Some s => s
  | None => "None"
  end.

(** The handler that [register_all_errors] installs for
    [UnknownIpConflict]; [src/errors.py] resolves the address with a
    copy of [get_ip_address], line for line the one above. *)
Definition UnknownIpConflictError (request : Request) : result JSONResponse :=
  ip ← get_ip_address request;
  Ok (mkJSONResponse 407
        {[ "message" := VStr ("Unknown Ip Address: " +:+ format_optional_str ip);
           "ip" := optional_str ip;
           "error_code" := VStr "proxy_conflict" ]}).

(** * The vocabulary of the statements *)

(** The error with which each concrete verifier refuses a token of the
    other kind. *)
Definition kind_error (self : bearer) : exn :=
  match self with
  | TokenBearer => NotImplementedError
  | AccessTokenBearer => AccessTokenRequired
  | RefreshTokenBearer => RefreshTokenRequired
  end.

(** The claims carry the kind that the verifier refuses. *)
Definition wrong_kind (self : bearer) (token_data : pydict) : Prop :=
  match self with
  | TokenBearer => False
  | AccessTokenBearer =>
      exists v, token_data !! "refresh" = Some v /\ truthy v = true
  | RefreshTokenBearer =>
      exists v, token_data !! "refresh" = Some v /\ truthy v = false
  end.

(** The value, or the loopback address in place of an empty one. *)
Definition or_loopback (s : string) : string :=
  if str_truthy s then s else "127.0.0.1".


(** The trust store holds a Known-IP row, respectively a Banned-IP row,
    for the pair of the user and the address. *)
Definition known (db : DB) (user : User.t) (ip : string) : Prop :=
  exists k, k ∈ known_ips db
            /\ KnownIps.userUid k = Some (User.uid user) /\ KnownIps.ip k = ip.

Definition banned (db : DB) (user : User.t) (ip : string) : Prop :=
  exists b, b ∈ banned_ips db
            /\ BannedIps.userUid b = Some (User.uid user) /\ BannedIps.ip b = ip.

(** The row that the look-up by e-mail yields. *)
Definition user_by_email (db : DB) (e : string) : option User.t :=
  head (filter (fun u => User.email u = e) (users db)).

(** The claims name the e-mail [e] as their subject. *)
Definition token_email (token_details : pydict) (e : string) : Prop :=
  exists claims, token_details !! "user" = Some (VDict claims)
                 /\ claims !! "email" = Some (VStr e).

(** A computation that leaves the stores as it found them. *)
Definition read_only {A} (m : session A) : Prop :=
  forall db, (m db).2 = db.

(** Every character of the string satisfies the test; some character is
    the given one. *)
Fixpoint all_chars (test : ascii -> bool) (s : string) : bool :=
  match s with
  | EmptyString => true
  | String c rest => test c && all_chars test rest
  end.

Definition has_char (c : ascii) (s : string) : bool :=
  negb (all_chars (fun d => negb (Ascii.eqb d c)) s).

(** The first and the last character of the string are white space. *)
Definition starts_with_space (s : string) : bool :=
  match s with
  | EmptyString => false
  | String c _ => py_isspace c
  end.

Fixpoint ends_with_space (s : string) : bool :=
  match s with
  | EmptyString => false
  | String c EmptyString => py_isspace c
  | String _ rest => ends_with_space rest
  end.

(** Membership of the trust store can be decided. *)
Global Instance known_dec db user ip : Decision (known db user ip).
Proof.
  refine (cast_if (decide (Exists
            (fun k => KnownIps.userUid k = Some (User.uid user)
                      /\ KnownIps.ip k = ip) (known_ips db))));
    unfold known; rewrite Exists_exists in *; done.
Defined.

Global Instance banned_dec db user ip : Decision (banned db user ip).
Proof.
  refine (cast_if (decide (Exists
            (fun b => BannedIps.userUid b = Some (User.uid user)
                      /\ BannedIps.ip b = ip) (banned_ips db))));
    unfold banned; rewrite Exists_exists in *; done.
Defined.

(** The constraints that [models.py] declares on the three tables:
    the primary keys and the e-mail are unique, and the [userUid] of an
    IP row is the key of a row of [users]. *)
Record consistent (db : DB) : Prop := mkConsistent {
  user_keys : NoDup (User.uid <$> users db);
  user_emails : NoDup (User.email <$> users db);
  known_keys : NoDup (KnownIps.uid <$> known_ips db);
  banned_keys : NoDup (BannedIps.uid <$> banned_ips db);
  known_refs : forall k, k ∈ known_ips db -> user_ref_ok db (KnownIps.userUid k);
  banned_refs : forall b, b ∈ banned_ips db -> user_ref_ok db (BannedIps.userUid b)
}.

(** A computation that keeps the constraints of the tables. *)
Definition preserves {A} (m : session A) : Prop :=
  forall db, consistent db -> consistent (m db).2.

(** The row is a ban of the address for the user. *)
Definition bans (user : User.t) (ip : string) (row : BannedIps.t) : Prop :=
  BannedIps.userUid row = Some (User.uid user) /\ BannedIps.ip row = ip.

(** The row that the look-up by key yields. *)
Definition user_by_uid (db : DB) (uid : UUID) : option User.t :=
  head (filter (fun u => User.uid u = uid) (users db)).

(** The operations of [dependencies.py] and of the user service that
    read or write the three tables, each with its arguments. *)
Inductive operation : Type :=
| DoesUserExist (email : option string) (uid : option UUID) (request : Request)
| DoesIpExist (user : User.t) (request : Request)
| GetCurrentUser (token_details : pydict) (request : Request)
| GetUserByEmailOrUid (email : option string) (uid : option UUID)
| AuthenticateUser (verifyHashKey : string -> string -> bool)
    (form_data : UserCreateOrLoginSchema.t) (request : Request)
| RegisterNewUser (get_location : string -> option LocationSchema.t)
    (generateHashKey : string -> string) (verification_code : string)
    (store_verification_code : UUID -> string -> bool) (permission : string)
    (form_data : UserCreateOrLoginSchema.t) (request : Request)
    (user_uid ip_uid : UUID)
| RemoveUser (user : User.t)
| AddAllowedIp (user : User.t) (ip : string) (new_uid : UUID)
| AddBannedIp (append_to_known_ips : result unit) (user : User.t)
    (ip : string) (new_uid : UUID)
| RemoveBannedIp (user : User.t) (ip : string).

(** The stores that a run of the operation leaves, returning or
    raising. *)
Definition final_store (op : operation) (db : DB) : DB :=
  match op with
  | DoesUserExist email uid request => (does_user_exist email uid request db).2
  | DoesIpExist user request => (does_ip_exist user request db).2
  | GetCurrentUser token_details request =>
      (get_current_user token_details request db).2
  | GetUserByEmailOrUid email uid => (get_user_by_email_or_uid email uid db).2
  | AuthenticateUser verifyHashKey form_data request =>
      (authenticate_user verifyHashKey form_data request db).2
  | RegisterNewUser get_location generateHashKey verification_code
      store_verification_code permission form_data request user_uid ip_uid =>
      (register_new_user get_location generateHashKey verification_code
         store_verification_code permission form_data request
         user_uid ip_uid db).2
  | RemoveUser user => (remove_user user db).2
  | AddAllowedIp user ip new_uid => (add_allowed_ip user ip new_uid db).2
  | AddBannedIp append_to_known_ips user ip new_uid =>
      (add_banned_ip append_to_known_ips user ip new_uid db).2
  | RemoveBannedIp user ip => (remove_banned_ip user ip db).2
  end.

(** The explicit management operations on the IP rows. *)
Definition management (op : operation) : bool :=
  match op with
  | AddAllowedIp _ _ _ | AddBannedIp _ _ _ _ | RemoveBannedIp _ _ => true
  | _ => false
  end.

(** The operations that write IP rows: the management operations, the
    registration and the removal of an account. *)
Definition writes_ip_rows (op : operation) : bool :=
  match op with
  | RegisterNewUser _ _ _ _ _ _ _ _ _ | RemoveUser _ => true
  | _ => management op
  end.

(** The run has changed a row of the Known-IP or of the Banned-IP
    table. *)
Definition ip_rows_changed (op : operation) (db : DB) : Prop :=
  known_ips (final_store op db) ≠ known_ips db
  \/ banned_ips (final_store op db) ≠ banned_ips db.

(** * Sample data *)

(** A request that carries only a bearer credential. *)
Definition bare_request : Request := mkRequest ∅ None None.

(** The claims of a refresh token and of an access token. *)
Definition refresh_claims : pydict :=
  {[ "jti" := VStr "j1"; "refresh" := VBool true;
     "user" := VDict {[ "email" := VStr "u1@example.org" ]} ]}.
Definition access_claims : pydict :=
  {[ "jti" := VStr "j2"; "refresh" := VBool false;
     "user" := VDict {[ "email" := VStr "u1@example.org" ]} ]}.

(** A codec that knows two tokens. *)
Definition sample_decode (token : string) : option pydict :=
  if String.eqb token "refresh-token" then Some refresh_claims
  else if String.eqb token "access-token" then Some access_claims
  else None.

Definition sends (token : string) : Request -> result string :=
  fun _ => Ok token.

(** A user of the samples, and the same user with the account locked. *)
Definition u1 : User.t :=
  User.mk 1%N "u1@example.org" "hash" None None None None false
    false false false.
Definition u1_blocked : User.t :=
  User.mk 1%N "u1@example.org" "hash" None None None None false
    true false false.

(** A request whose trusted-proxy header names the client address. *)
Definition proxied (a : string) : Request :=
  mkRequest {[ "next-ip" := a ]} None None.

(** Stores in which 10.0.0.9 is banned for the user: without a Known-IP
    row, with one, and without one for the locked account. *)
Definition db_banned_only : DB :=
  mkDB [u1] [] [BannedIps.mk 10%N "10.0.0.9" (Some 1%N)].
Definition db_known_and_banned : DB :=
  mkDB [u1] [KnownIps.mk 20%N "10.0.0.9" (Some 1%N)]
       [BannedIps.mk 10%N "10.0.0.9" (Some 1%N)].
Definition db_blocked_banned : DB :=
  mkDB [u1_blocked] [KnownIps.mk 20%N "10.0.0.1" (Some 1%N)]
       [BannedIps.mk 10%N "10.0.0.9" (Some 1%N)].

(** The example of the spec: [u1] registers from 10.0.0.1. *)
Definition sample_location (ip : string) : option LocationSchema.t :=
  Some (LocationSchema.mk (Some ip) None None (Some "Nigeria") (Some "NG")
          (Some "+234") (Some "NGN") false).
Definition sample_hash (password : string) : string := "hashed:" +:+ password.
Definition registration_form : UserCreateOrLoginSchema.t :=
  UserCreateOrLoginSchema.mk "u1@example.org" "secret1".
Definition empty_db : DB := mkDB [] [] [].
Definition registered_u1 : User.t :=
  User.mk 1%N "u1@example.org" "hashed:secret1" (Some "Nigeria") (Some "NG")
    (Some "+234") (Some "NGN") false false false false.
Definition db_registered : DB :=
  mkDB [registered_u1] [KnownIps.mk 20%N "10.0.0.1" (Some 1%N)] [].
Definition db_allowed : DB :=
  mkDB [registered_u1]
       [KnownIps.mk 20%N "10.0.0.1" (Some 1%N);
        KnownIps.mk 21%N "10.0.0.2" (Some 1%N)] [].

(** Requests through a recognized host. *)
Definition forwarded_request : Request :=
  mkRequest {[ "x-forwarded-for" := " 9.9.9.9 , 10.1.1.1";
               "x-real-ip" := "5.5.5.5" ]}
            (Some "localhost") (Some "7.7.7.7").
Definition peerless_request : Request :=
  mkRequest ∅ (Some "localhost") None.

(** Claims whose refresh flag is the string "false", and claims without
    a token identifier. *)
Definition stringly_claims : pydict :=
  {[ "jti" := VStr "j3"; "refresh" := VStr "false" ]}.
Definition anonymous_claims : pydict :=
  {[ "refresh" := VBool false ]}.

(** A codec that decodes every token to the same claims. *)
Definition decodes_to (claims : pydict) : string -> option pydict :=
  fun _ => Some claims.

(** Claims that name nobody, and claims without a subject. *)
Definition null_email_claims : pydict :=
  {[ "jti" := VStr "j4"; "refresh" := VBool false;
     "user" := VDict {[ "email" := VNone ]} ]}.
Definition subjectless_claims : pydict :=
  {[ "jti" := VStr "j5"; "refresh" := VBool false ]}.

(** A second user, and stores in which the first one is known at
    10.0.0.1: the account locked, and two accounts side by side. *)
Definition u2 : User.t :=
  User.mk 2%N "u2@example.org" "hash2" None None None None false
    false false false.
Definition db_blocked_known : DB :=
  mkDB [u1_blocked] [KnownIps.mk 20%N "10.0.0.1" (Some 1%N)] [].
Definition db_two_users : DB :=
  mkDB [u1; u2] [KnownIps.mk 20%N "10.0.0.1" (Some 1%N)] [].
Definition db_two_users_allowed : DB :=
  mkDB [u1; u2]
       [KnownIps.mk 20%N "10.0.0.1" (Some 1%N);
        KnownIps.mk 22%N "10.0.0.7" (Some 2%N)] [].
Definition db_known_and_banned_again : DB :=
  mkDB [u1]
       [KnownIps.mk 20%N "10.0.0.9" (Some 1%N);
        KnownIps.mk 23%N "10.0.0.9" (Some 1%N)]
       [BannedIps.mk 10%N "10.0.0.9" (Some 1%N)].

(** A hash check that accepts one password for one hash. *)
Definition sample_verify (password hash : string) : bool :=
  String.eqb hash ("hashed:" +:+ password).

(** The registered user with the account locked, known at 10.0.0.1. *)
Definition registered_u1_blocked : User.t :=
  User.mk 1%N "u1@example.org" "hashed:secret1" (Some "Nigeria") (Some "NG")
    (Some "+234") (Some "NGN") false true false false.
Definition db_registered_blocked : DB :=
  mkDB [registered_u1_blocked] [KnownIps.mk 20%N "10.0.0.1" (Some 1%N)] [].
Definition wrong_password_form : UserCreateOrLoginSchema.t :=
  UserCreateOrLoginSchema.mk "u1@example.org" "guess".

(** A Redis that is down. *)
Definition redis_down : UUID -> string -> bool := fun _ _ => false.

(** A store in which the ban of 10.0.0.9 was entered twice, and what one
    unban leaves of it. *)
Definition db_banned_twice : DB :=
  mkDB [u1] [KnownIps.mk 20%N "10.0.0.9" (Some 1%N)]
       [BannedIps.mk 10%N "10.0.0.9" (Some 1%N);
        BannedIps.mk 11%N "10.0.0.9" (Some 1%N)].
Definition db_banned_once_left : DB :=
  mkDB [u1] [KnownIps.mk 20%N "10.0.0.9" (Some 1%N)]
       [BannedIps.mk 11%N "10.0.0.9" (Some 1%N)].

(** Two accounts with their addresses, a ban of the second, and the
    store without the second account. *)
Definition db_two_accounts : DB :=
  mkDB [u1; u2]
       [KnownIps.mk 20%N "10.0.0.1" (Some 1%N);
        KnownIps.mk 22%N "10.0.0.7" (Some 2%N)]
       [BannedIps.mk 12%N "10.0.0.8" (Some 2%N)].
Definition db_first_account_only : DB :=
  mkDB [u1] [KnownIps.mk 20%N "10.0.0.1" (Some 1%N)] [].

(** A superuser, alone in a store. *)
Definition root : User.t :=
  User.mk 9%N "root@example.org" "hash9" None None None None false
    false true true.
Definition db_root : DB :=
  mkDB [root] [KnownIps.mk 29%N "10.0.0.1" (Some 9%N)] [].

(** The store after 10.0.0.9 was banned for the user of the samples. *)
Definition db_two_users_banned : DB :=
  mkDB [u1; u2] [KnownIps.mk 20%N "10.0.0.1" (Some 1%N)]
       [BannedIps.mk 13%N "10.0.0.9" (Some 1%N)].

(** * Properties *)

(** ** The bearer verifier *)

Lemma dict_truthy_lookup (d : pydict) (k : string) (v : pyval) :
  d !! k = Some v -> dict_truthy d = true.
Proof.
  intros Hk. unfold dict_truthy, truthy.
  destruct (size d) eqn:Hsz; [|done].
  apply map_size_empty_iff in Hsz. subst d.
  by rewrite lookup_empty in Hk.
Qed.

Lemma verify_wrong_kind (self : bearer) (td : pydict) :
  wrong_kind self td -> verify_token_data self td = Raise (kind_error self).
Proof.
  destruct self; simpl; [done| |]; intros (v & Hv & Ht);
    rewrite (dict_truthy_lookup _ _ _ Hv); unfold getitem; rewrite Hv; simpl;
    by rewrite Ht.
Qed.

Section VerifierFacts.

Variable http_bearer : Request -> result string.
Variable decode_token : string -> option pydict.
Variable token_in_blocklist : pyval -> bool.

Let call := bearer_call http_bearer decode_token token_in_blocklist.

(** Once the token has decoded and carries a [jti], the verifier asks
    the revocation store, and only then the kind check. *)
Lemma bearer_call_decoded self request token td jti :
  http_bearer request = Ok token ->
  decode_token token = Some td ->
  td !! "jti" = Some jti ->
  call self request =
    if token_in_blocklist jti then Raise InvalidToken
    else (_ ← verify_token_data self td; Ok td).
Proof.
  intros Hc Hd Hj. unfold call, bearer_call, token_valid, getitem.
  rewrite Hc. simpl. rewrite Hd, Hj. simpl. done.
Qed.

Lemma bearer_call_undecodable self request token :
  http_bearer request = Ok token ->
  decode_token token = None ->
  call self request = Raise InvalidToken.
Proof.
  intros Hc Hd. unfold call, bearer_call. rewrite Hc. simpl. by rewrite Hd.
Qed.

(** C2, as the code has it: the revocation store is asked before the
    kind is checked, so a decoded token of the wrong kind whose [jti] is
    revoked is refused with [InvalidToken]. *)
Theorem revoked_wrong_kind_is_invalid self request token td jti :
  http_bearer request = Ok token ->
  decode_token token = Some td ->
  td !! "jti" = Some jti ->
  wrong_kind self td ->
  token_in_blocklist jti = true ->
  call self request = Raise InvalidToken
  /\ call self request <> Raise (kind_error self).
Proof.
  intros Hc Hd Hj Hk Hb.
  rewrite (bearer_call_decoded _ _ _ _ _ Hc Hd Hj), Hb.
  split; [done|]. destruct self; simpl in *; [done| |]; discriminate.
Qed.

(** C3: a decoded, unrevoked token whose refresh flag is false is
    returned by the access verifier and refused by the refresh verifier
    with [RefreshTokenRequired]; one whose flag is true is returned by
    the refresh verifier and refused by the access verifier with
    [AccessTokenRequired]. *)
Theorem kind_check_unrevoked request token td jti (refresh : bool) :
  http_bearer request = Ok token ->
  decode_token token = Some td ->
  td !! "jti" = Some jti ->
  token_in_blocklist jti = false ->
  td !! "refresh" = Some (VBool refresh) ->
  if refresh
  then call RefreshTokenBearer request = Ok td
       /\ call AccessTokenBearer request = Raise AccessTokenRequired
  else call AccessTokenBearer request = Ok td
       /\ call RefreshTokenBearer request = Raise RefreshTokenRequired.
Proof.
  intros Hc Hd Hj Hb Hr.
  rewrite !(bearer_call_decoded _ _ _ _ _ Hc Hd Hj), Hb.
  unfold verify_token_data, getitem.
  rewrite (dict_truthy_lookup _ _ _ Hj), Hr.
  destruct refresh; simpl; done.
Qed.

(** C4: a token that decodes but whose [jti] is in the revocation store
    is refused with [InvalidToken], by either verifier, and so is a token
    that does not decode: the caller sees the same error. *)
Theorem revoked_is_invalid self request token :
  http_bearer request = Ok token ->
  (forall td jti,
      decode_token token = Some td ->
      td !! "jti" = Some jti ->
      token_in_blocklist jti = true ->
      call self request = Raise InvalidToken)
  /\ (decode_token token = None -> call self request = Raise InvalidToken).
Proof.
  intros Hc. split.
  - intros td jti Hd Hj Hb.
    by rewrite (bearer_call_decoded _ _ _ _ _ Hc Hd Hj), Hb.
  - by apply bearer_call_undecodable.
Qed.

End VerifierFacts.

(** C2 as the spec states it (the kind is checked before the revocation
    store is asked) fails: a revoked refresh token shown to the access
    verifier is refused with [InvalidToken], not [AccessTokenRequired]. *)
Lemma kind_before_revocation_fails :
  ~ (forall http_bearer decode_token token_in_blocklist self request token td jti,
        http_bearer request = Ok token ->
        decode_token token = Some td ->
        td !! "jti" = Some jti ->
        wrong_kind self td ->
        token_in_blocklist jti = true ->
        bearer_call http_bearer decode_token token_in_blocklist self request
        = Raise (kind_error self)).
Proof.
  intros H.
  specialize (H (sends "refresh-token") sample_decode (fun _ => true)
                AccessTokenBearer bare_request "refresh-token"
                refresh_claims (VStr "j1")).
  assert (Hw : wrong_kind AccessTokenBearer refresh_claims)
    by (exists (VBool true); split; reflexivity).
  specialize (H eq_refl eq_refl eq_refl Hw eq_refl).
  vm_compute in H. discriminate H.
Qed.

Lemma revoked_wrong_kind_is_invalid_witness :
  bearer_call (sends "refresh-token") sample_decode (fun _ => true)
    AccessTokenBearer bare_request = Raise InvalidToken
  /\ bearer_call (sends "refresh-token") sample_decode (fun _ => true)
       AccessTokenBearer bare_request <> Raise AccessTokenRequired.
Proof.
  apply (revoked_wrong_kind_is_invalid (sends "refresh-token") sample_decode
           (fun _ => true) AccessTokenBearer bare_request "refresh-token"
           refresh_claims (VStr "j1")).
  - reflexivity.
  - reflexivity.
  - reflexivity.
  - exists (VBool true). split; reflexivity.
  - reflexivity.
Defined.

Lemma kind_check_unrevoked_witness :
  bearer_call (sends "access-token") sample_decode (fun _ => false)
    AccessTokenBearer bare_request = Ok access_claims
  /\ bearer_call (sends "access-token") sample_decode (fun _ => false)
       RefreshTokenBearer bare_request = Raise RefreshTokenRequired.
Proof.
  apply (kind_check_unrevoked (sends "access-token") sample_decode
           (fun _ => false) bare_request "access-token" access_claims
           (VStr "j2") false); reflexivity.
Defined.

Lemma revoked_is_invalid_witness :
  bearer_call (sends "access-token") sample_decode (fun _ => true)
    RefreshTokenBearer bare_request = Raise InvalidToken.
Proof.
  apply (proj1 (revoked_is_invalid (sends "access-token") sample_decode
                  (fun _ => true) RefreshTokenBearer bare_request
                  "access-token" eq_refl)
           access_claims (VStr "j2")); reflexivity.
Defined.

(** ** The client address *)


Lemma or_loopback_nonempty s : or_loopback s <> EmptyString.
Proof. unfold or_loopback. by destruct s. Qed.

Lemma py_or_loopback s :
  py_or (Some s) (Some "127.0.0.1") = Some (or_loopback s).
Proof. unfold py_or, or_loopback. simpl. by destruct (str_truthy s). Qed.

Example strip_first_field :
  strip (first_field " 9.9.9.9 , 10.1.1.1") = "9.9.9.9".
Proof. reflexivity. Qed.

(** The text before the first comma holds no comma, and the whole text
    is that field alone or that field, a comma and a remainder. *)
Lemma first_field_split s :
  s = first_field s
  \/ exists rest, s = (first_field s +:+ String ","%char rest).
Proof.
  induction s as [|c s IH]; simpl; [by left|].
  destruct (Ascii.eqb_spec c ","%char) as [->|Hc].
  - right. by exists s.
  - destruct IH as [IH|[rest IH]].
    + left. by f_equal.
    + right. exists rest.
      transitivity (String c (first_field s +:+ String ","%char rest));
        [by f_equal | reflexivity].
Qed.


Lemma py_or_loopback_some (x : option string) :
  exists s, py_or x (Some "127.0.0.1") = Some s /\ s <> EmptyString.
Proof.
  destruct x as [s|].
  - exists (or_loopback s). split; [apply py_or_loopback | apply or_loopback_nonempty].
  - by exists "127.0.0.1".
Qed.

(** Whatever [get_ip_address] returns is a non-empty string. *)
Lemma get_ip_address_returned request ip :
  get_ip_address request = Ok ip -> exists s, ip = Some s /\ s <> EmptyString.
Proof.
  unfold get_ip_address.
  match goal with |- (?m ≫= _) = _ -> _ => destruct m as [chosen|e] end;
    simpl; [|done].
  intros [= <-]. apply py_or_loopback_some.
Qed.

(** The only exception of [get_ip_address] is the one of
    [request.client.host] on a request without a peer. *)
Lemma get_ip_address_raised request e :
  get_ip_address request = Raise e -> e = AttributeError /\ client request = None.
Proof.
  unfold get_ip_address, client_host.
  destruct (client request) as [peer|]; repeat case_match; simpl;
    intros; simplify_eq; done.
Qed.



(** ** Identity and trust resolution *)

Section SelectFirst.

Context {R : Type} (cond : R -> Prop) `{!forall r, Decision (cond r)}.

Lemma head_filter_none (l : list R) :
  head (filter cond l) = None <-> forall r, r ∈ l -> ~ cond r.
Proof.
  rewrite head_None. split.
  - intros Hnil r Hr Hc. by eapply filter_nil_not_elem_of.
  - intros Hall. destruct (filter cond l) as [|r rest] eqn:E; [done|].
    assert (Hr : r ∈ filter cond l) by (rewrite E; left).
    apply list_elem_of_filter in Hr as [Hc Hr]. by destruct (Hall r Hr).
Qed.

Lemma head_filter_some (l : list R) (r : R) :
  r ∈ l -> cond r -> exists r', head (filter cond l) = Some r'.
Proof.
  intros Hr Hc. destruct (head (filter cond l)) as [r'|] eqn:E; [eauto|].
  by destruct (proj1 (head_filter_none l) E r Hr).
Qed.

End SelectFirst.

Section Resolver.

Variables (db : DB) (user : User.t) (request : Request) (ip : string).
Hypothesis Hip : get_ip_address request = Ok (Some ip).

Lemma does_ip_exist_unknown :
  ~ known db user ip ->
  does_ip_exist user request db = (Raise UnknownIpConflict, db).
Proof using Hip.
  intros Hk. unfold does_ip_exist, lift, select_first.
  unfold mbind, session_bind. rewrite Hip.
  replace (head (filter _ (known_ips db))) with (@None KnownIps.t); [done|].
  symmetry. apply head_filter_none. intros k Hin [Hu [= Hi]].
  apply Hk. by exists k.
Qed.

Lemma does_ip_exist_banned :
  known db user ip -> banned db user ip ->
  does_ip_exist user request db = (Raise BannedIp, db).
Proof using Hip.
  intros (k & Hin & Hu & Hi) (b & Hbin & Hbu & Hbi).
  unfold does_ip_exist, lift, select_first.
  unfold mbind, session_bind. rewrite Hip.
  edestruct (head_filter_some
               (fun k => KnownIps.userUid k = Some (User.uid user)
                         /\ Some (KnownIps.ip k) = Some ip)
               (known_ips db) k) as [k' ->]; [done|by rewrite Hi|].
  edestruct (head_filter_some
               (fun b => Some (BannedIps.ip b) = Some ip
                         /\ BannedIps.userUid b = Some (User.uid user))
               (banned_ips db) b) as [b' ->]; [done|by rewrite Hbi|].
  done.
Qed.

Lemma does_ip_exist_trusted :
  known db user ip -> ~ banned db user ip ->
  does_ip_exist user request db = (Ok tt, db).
Proof using Hip.
  intros (k & Hin & Hu & Hi) Hb.
  unfold does_ip_exist, lift, select_first.
  unfold mbind, session_bind. rewrite Hip.
  edestruct (head_filter_some
               (fun k => KnownIps.userUid k = Some (User.uid user)
                         /\ Some (KnownIps.ip k) = Some ip)
               (known_ips db) k) as [k' ->]; [done|by rewrite Hi|].
  replace (head (filter _ (banned_ips db))) with (@None BannedIps.t); [done|].
  symmetry. apply head_filter_none. intros b Hbin [[= Hbi] Hbu].
  apply Hb. by exists b.
Qed.

End Resolver.

(** [get_current_user], once the claims name an e-mail and the look-up
    has found its row: the IP checks, then the block flag. *)
Lemma get_current_user_resolved token_details request db e user :
  token_email token_details e ->
  user_by_email db e = Some user ->
  get_current_user token_details request db =
    match does_ip_exist user request db with
    | (Ok _, db') =>
        if User.isBlocked user then (Raise UserBlocked, db') else (Ok user, db')
    | (Raise err, db') => (Raise err, db')
    end.
Proof.
  intros (claims & Hu & He) Hrow.
  unfold get_current_user, does_user_exist, lift, select_first, getitem.
  unfold mbind at 1 2 3 4, session_bind. rewrite Hu. simpl.
  unfold getitem. rewrite He. simpl.
  unfold user_by_email in Hrow.
  unfold mbind, session_bind. cbv beta. rewrite Hrow.
  destruct (does_ip_exist user request db) as [[[]|err] db']; simpl; [|done].
  unfold raise, mret, session_ret. by destruct (User.isBlocked user).
Qed.

(** C1, as the code has it: the ban is looked up after the Known-IP row.
    A banned address that is also known is refused with [BannedIp], by
    [does_ip_exist] and so by [get_current_user]; a banned address without
    a Known-IP row is refused with [UnknownIpConflict]. *)
Theorem ban_vetoes_known_ip db user request ip :
  get_ip_address request = Ok (Some ip) ->
  banned db user ip ->
  (known db user ip ->
   (does_ip_exist user request db).1 = Raise BannedIp
   /\ forall token_details e,
        token_email token_details e ->
        user_by_email db e = Some user ->
        (get_current_user token_details request db).1 = Raise BannedIp)
  /\ (~ known db user ip ->
      (does_ip_exist user request db).1 = Raise UnknownIpConflict).
Proof.
  intros Hip Hb. split.
  - intros Hk.
    pose proof (does_ip_exist_banned db user request ip Hip Hk Hb) as E.
    split; [by rewrite E|].
    intros td e Ht Hrow.
    by rewrite (get_current_user_resolved _ _ _ _ _ Ht Hrow), E.
  - intros Hk. by rewrite (does_ip_exist_unknown db user request ip Hip Hk).
Qed.

(** C5: for a user found in the store and a client address without a
    Known-IP row of that user, [does_ip_exist] and [get_current_user]
    raise [UnknownIpConflict], whatever the block flag and the Banned-IP
    rows are. *)
Theorem unknown_ip_decided_first db user request ip :
  get_ip_address request = Ok (Some ip) ->
  ~ known db user ip ->
  (does_ip_exist user request db).1 = Raise UnknownIpConflict
  /\ forall token_details e,
       token_email token_details e ->
       user_by_email db e = Some user ->
       (get_current_user token_details request db).1 = Raise UnknownIpConflict.
Proof.
  intros Hip Hk.
  pose proof (does_ip_exist_unknown db user request ip Hip Hk) as E.
  split; [by rewrite E|].
  intros td e Ht Hrow.
  by rewrite (get_current_user_resolved _ _ _ _ _ Ht Hrow), E.
Qed.

(** C1 as the spec states it (a ban is refused with [BannedIp] whether or
    not the address is known) fails: the address banned for the user but
    absent from the Known-IP rows is refused with [UnknownIpConflict]. *)
Lemma ban_veto_without_known_row_fails :
  ~ (forall db user request ip,
        get_ip_address request = Ok (Some ip) ->
        banned db user ip ->
        (does_ip_exist user request db).1 = Raise BannedIp).
Proof.
  intros H.
  specialize (H db_banned_only u1 (proxied "10.0.0.9") "10.0.0.9" eq_refl).
  assert (Hb : banned db_banned_only u1 "10.0.0.9").
  { exists (BannedIps.mk 10%N "10.0.0.9" (Some 1%N)).
    split; [left | split; reflexivity]. }
  specialize (H Hb). vm_compute in H. discriminate H.
Qed.

Lemma ban_vetoes_known_ip_witness :
  (does_ip_exist u1 (proxied "10.0.0.9") db_known_and_banned).1
  = Raise BannedIp.
Proof.
  refine (proj1 (proj1 (ban_vetoes_known_ip db_known_and_banned u1
                          (proxied "10.0.0.9") "10.0.0.9" eq_refl _) _)).
  - exists (BannedIps.mk 10%N "10.0.0.9" (Some 1%N)).
    split; [left | split; reflexivity].
  - exists (KnownIps.mk 20%N "10.0.0.9" (Some 1%N)).
    split; [left | split; reflexivity].
Defined.

Lemma unknown_ip_decided_first_witness :
  (get_current_user access_claims (proxied "10.0.0.9") db_blocked_banned).1
  = Raise UnknownIpConflict.
Proof.
  refine (proj2 (unknown_ip_decided_first db_blocked_banned u1_blocked
                   (proxied "10.0.0.9") "10.0.0.9" eq_refl _)
            access_claims "u1@example.org" _ eq_refl).
  - intros (k & Hin & _ & Hi).
    apply list_elem_of_singleton in Hin. subst k. discriminate Hi.
  - exists {[ "email" := VStr "u1@example.org" ]}. split; reflexivity.
Defined.

(** ** The read path writes nothing *)

Section ReadOnly.

Context {A B : Type}.

Lemma read_only_ret (a : A) : read_only (mret a).
Proof. by intros db. Qed.

Lemma read_only_raise (e : exn) : read_only (@raise A e).
Proof. by intros db. Qed.

Lemma read_only_lift (r : result A) : read_only (lift r).
Proof. by intros db. Qed.

Lemma read_only_select_first (table : DB -> list A) (cond : A -> Prop)
    `{!forall r, Decision (cond r)} :
  read_only (select_first table cond).
Proof. by intros db. Qed.

Lemma read_only_bind (m : session A) (k : A -> session B) :
  read_only m -> (forall a, read_only (k a)) -> read_only (m ≫= k).
Proof.
  intros Hm Hk db. unfold mbind, session_bind.
  specialize (Hm db). destruct (m db) as [[a|e] db']; simpl in *; subst db'.
  - apply Hk.
  - done.
Qed.

End ReadOnly.

Create HintDb read_only.
#[local] Hint Resolve read_only_ret read_only_raise read_only_lift
  read_only_select_first : read_only.

Ltac read_only_step :=
  first [ apply read_only_bind; [|intros ?]
        | match goal with
          | |- read_only (match ?x with _ => _ end) => destruct x
          | |- read_only (if ?b then _ else _) => destruct b
          end
        | solve [auto with read_only] ].

Lemma does_ip_exist_read_only user request :
  read_only (does_ip_exist user request).
Proof. unfold does_ip_exist. repeat read_only_step. Qed.

Lemma does_user_exist_read_only email uid request :
  read_only (does_user_exist email uid request).
Proof.
  unfold does_user_exist.
  apply read_only_bind; [repeat read_only_step|].
  intros [user|]; [|apply read_only_raise].
  apply read_only_bind; [apply does_ip_exist_read_only|].
  intros _. apply read_only_ret.
Qed.

Lemma get_current_user_read_only token_details request :
  read_only (get_current_user token_details request).
Proof.
  unfold get_current_user.
  do 3 (apply read_only_bind; [apply read_only_lift|intros ?]).
  apply read_only_bind; [apply does_user_exist_read_only|].
  intros user. repeat read_only_step.
Qed.

(** The management operations do write: a completed [add_allowed_ip]
    has appended its row to the Known-IP table and nothing else. *)
Lemma add_allowed_ip_completed user ip new_uid db r db' :
  add_allowed_ip user ip new_uid db = (Ok r, db') ->
  r = user
  /\ db' = mkDB (users db)
             (known_ips db ++ [KnownIps.mk new_uid ip (Some (User.uid user))])
             (banned_ips db).
Proof.
  unfold add_allowed_ip, insert_known_ip, mbind, session_bind.
  case_decide; simpl; [done|]. by intros [= <- <-].
Qed.

(** [add_allowed_ip] completes exactly when the drawn key is fresh and
    the user's row exists. *)
Lemma add_allowed_ip_completes user ip new_uid db :
  new_uid ∉ KnownIps.uid <$> known_ips db ->
  User.uid user ∈ User.uid <$> users db ->
  exists db', add_allowed_ip user ip new_uid db = (Ok user, db').
Proof.
  intros Hfresh Huser.
  unfold add_allowed_ip, insert_known_ip, mbind, session_bind.
  case_decide as Hd; simpl; [|eauto].
  destruct Hd as [Hd|Hd]; [done|]. by destruct Hd.
Qed.

(** ** Permissions *)

(** C9: [permission_check] returns the user exactly when both
    [isCompany] and [isSuperuser] are set, and raises
    [InsufficientPermission] as soon as one of them is not; a company
    account that is not a superuser is refused. *)
Theorem permission_check_needs_both (current_user : User.t) :
  (permission_check current_user = Ok current_user
   <-> User.isCompany current_user = true
       /\ User.isSuperuser current_user = true)
  /\ (permission_check current_user = Raise InsufficientPermission
      <-> User.isCompany current_user = false
          \/ User.isSuperuser current_user = false).
Proof.
  unfold permission_check.
  destruct (User.isCompany current_user), (User.isSuperuser current_user);
    simpl; intuition congruence.
Qed.

(** ** Allow-listing *)

(** With a Known-IP row, [does_ip_exist] gets past the first check: it
    returns, or the ban refuses the address. *)
Lemma does_ip_exist_known db user request ip :
  get_ip_address request = Ok (Some ip) ->
  known db user ip ->
  (does_ip_exist user request db).1 <> Raise UnknownIpConflict.
Proof.
  intros Hip (k & Hin & Hu & Hi).
  unfold does_ip_exist, lift, select_first.
  unfold mbind, session_bind. rewrite Hip.
  edestruct (head_filter_some
               (fun k => KnownIps.userUid k = Some (User.uid user)
                         /\ Some (KnownIps.ip k) = Some ip)
               (known_ips db) k) as [k' ->]; [done|by rewrite Hi|].
  by destruct (head (filter _ (banned_ips db))).
Qed.

(** What a completed registration has done: the address was resolved,
    the e-mail was free, and the two tables have one more row each. *)
Lemma register_new_user_completed
    get_location generateHashKey verification_code store_verification_code
    permission form_data request user_uid ip_uid db code db' :
  register_new_user get_location generateHashKey verification_code
    store_verification_code permission form_data request user_uid ip_uid db
  = (Ok code, db') ->
  exists ip new_user,
    get_ip_address request = Ok (Some ip)
    /\ user_by_email db (UserCreateOrLoginSchema.email form_data) = None
    /\ User.uid new_user = user_uid
    /\ User.email new_user = UserCreateOrLoginSchema.email form_data
    /\ User.isBlocked new_user = false
    /\ db' = mkDB (users db ++ [new_user])
               (known_ips db ++ [KnownIps.mk ip_uid ip (Some user_uid)])
               (banned_ips db).
Proof.
  unfold register_new_user, get_user_by_email_or_uid, select_first,
    lift, raise, insert_user, insert_known_ip, user_by_email.
  unfold mbind, session_bind, mret, session_ret.
  destruct (get_ip_address request) as [[ip|]|e]; [|done|done].
  destruct (head (filter _ (users db))); [done|].
  destruct (get_location ip) as [location|]; simpl; [|done].
  case_decide; [done|]. simpl. case_decide; [done|]. simpl.
  destruct (store_verification_code _ _); simpl; [|done].
  intros [= <- <-]. eexists ip, _. repeat split; reflexivity.
Qed.

(** A registration returns when the address resolves, the e-mail is
    free, the location service answers, the two keys are new and the
    verification code is stored; the two tables then have one more row
    each. *)
Lemma register_new_user_completes
    get_location generateHashKey verification_code store_verification_code
    permission form_data request user_uid ip_uid db ip location :
  get_ip_address request = Ok (Some ip) ->
  user_by_email db (UserCreateOrLoginSchema.email form_data) = None ->
  get_location ip = Some location ->
  user_uid ∉ User.uid <$> users db ->
  ip_uid ∉ KnownIps.uid <$> known_ips db ->
  store_verification_code user_uid verification_code = true ->
  exists new_user,
    User.uid new_user = user_uid
    /\ User.email new_user = UserCreateOrLoginSchema.email form_data
    /\ register_new_user get_location generateHashKey verification_code
         store_verification_code permission form_data request user_uid ip_uid db
       = (Ok verification_code,
          mkDB (users db ++ [new_user])
            (known_ips db ++ [KnownIps.mk ip_uid ip (Some user_uid)])
            (banned_ips db)).
Proof.
  intros Hip Hfree Hloc Hu Hk Hstore.
  assert (Hemail : UserCreateOrLoginSchema.email form_data
                   ∉ User.email <$> users db).
  { intros (row & He & Hin)%list_elem_of_fmap.
    by destruct (proj1 (head_filter_none _ _) Hfree row Hin). }
  unfold user_by_email in Hfree.
  eexists (User.mk user_uid _ _ _ _ _ _ _ _ _ _).
  split; [reflexivity|]. split; [reflexivity|].
  unfold register_new_user, get_user_by_email_or_uid, select_first,
    lift, raise, insert_user, insert_known_ip.
  unfold mbind, session_bind, mret, session_ret.
  rewrite Hip, Hfree, Hloc. simpl.
  rewrite decide_False by tauto. simpl.
  rewrite decide_False; cycle 1.
  { intros [?|Href]; [done|]. apply Href. simpl.
    rewrite fmap_app. apply elem_of_app. right. left. }
  simpl. by rewrite Hstore.
Qed.

(** C7: [register_new_user] stores a Known-IP row for the registering
    address and the new user: it returns when the address resolves, the
    e-mail is free, the location service answers, the drawn keys are new
    and the verification code is stored, and whenever it returns the row
    is there, so that the new user resolved from that address is not
    refused with [UnknownIpConflict].  And [add_allowed_ip user b]
    returns when the drawn key is new and the user has a row, appending
    the row of the pair; after it [does_ip_exist] for the user from the
    address [b], which raised [UnknownIpConflict] while [b] was not
    known, does not raise it, and returns when [b] is not banned for
    the user. *)
Theorem allow_listing_round_trip :
  (forall get_location generateHashKey verification_code
          store_verification_code permission form_data request
          user_uid ip_uid db ip location,
      get_ip_address request = Ok (Some ip) ->
      user_by_email db (UserCreateOrLoginSchema.email form_data) = None ->
      get_location ip = Some location ->
      user_uid ∉ User.uid <$> users db ->
      ip_uid ∉ KnownIps.uid <$> known_ips db ->
      store_verification_code user_uid verification_code = true ->
      exists new_user db',
        register_new_user get_location generateHashKey verification_code
          store_verification_code permission form_data request
          user_uid ip_uid db = (Ok verification_code, db')
        /\ users db' = users db ++ [new_user]
        /\ User.uid new_user = user_uid
        /\ User.email new_user = UserCreateOrLoginSchema.email form_data
        /\ known_ips db'
           = known_ips db ++ [KnownIps.mk ip_uid ip (Some user_uid)]
        /\ banned_ips db' = banned_ips db
        /\ known db' new_user ip
        /\ (does_ip_exist new_user request db').1 <> Raise UnknownIpConflict)
  /\ (forall get_location generateHashKey verification_code
             store_verification_code permission form_data request
             user_uid ip_uid db code db',
         register_new_user get_location generateHashKey verification_code
           store_verification_code permission form_data request
           user_uid ip_uid db = (Ok code, db') ->
         exists ip new_user,
           get_ip_address request = Ok (Some ip)
           /\ new_user ∈ users db'
           /\ User.uid new_user = user_uid
           /\ User.email new_user = UserCreateOrLoginSchema.email form_data
           /\ KnownIps.mk ip_uid ip (Some user_uid) ∈ known_ips db'
           /\ (does_ip_exist new_user request db').1 <> Raise UnknownIpConflict)
  /\ (forall user b new_uid db request,
         get_ip_address request = Ok (Some b) ->
         new_uid ∉ KnownIps.uid <$> known_ips db ->
         User.uid user ∈ User.uid <$> users db ->
         exists db',
           add_allowed_ip user b new_uid db = (Ok user, db')
           /\ users db' = users db
           /\ known_ips db'
              = known_ips db ++ [KnownIps.mk new_uid b (Some (User.uid user))]
           /\ banned_ips db' = banned_ips db
           /\ (~ known db user b ->
               does_ip_exist user request db = (Raise UnknownIpConflict, db))
           /\ (does_ip_exist user request db').1 <> Raise UnknownIpConflict
           /\ (~ banned db user b ->
               does_ip_exist user request db' = (Ok tt, db')))
  /\ (forall user b new_uid db r db' request,
         add_allowed_ip user b new_uid db = (Ok r, db') ->
         get_ip_address request = Ok (Some b) ->
         (does_ip_exist user request db').1 <> Raise UnknownIpConflict
         /\ (~ banned db' user b ->
             does_ip_exist user request db' = (Ok tt, db'))).
Proof.
  split; [|split; [|split]].
  - intros * Hip Hfree Hloc Hu Hk Hstore.
    destruct (register_new_user_completes get_location generateHashKey
                verification_code store_verification_code permission
                form_data request user_uid ip_uid db ip location
                Hip Hfree Hloc Hu Hk Hstore) as (new_user & Huid & He & Hrun).
    exists new_user. eexists. split; [exact Hrun|]. simpl.
    assert (Hknown : known
              (mkDB (users db ++ [new_user])
                 (known_ips db ++ [KnownIps.mk ip_uid ip (Some user_uid)])
                 (banned_ips db)) new_user ip).
    { eexists. split; [apply elem_of_app; right; left|]. simpl.
      by rewrite Huid. }
    repeat split; try done.
    by apply (does_ip_exist_known _ _ _ ip Hip).
  - intros * Hreg.
    apply register_new_user_completed in Hreg
      as (ip & new_user & Hip & _ & Hu & He & _ & ->).
    exists ip, new_user. simpl.
    assert (Hrow : KnownIps.mk ip_uid ip (Some user_uid)
                   ∈ known_ips db ++ [KnownIps.mk ip_uid ip (Some user_uid)]).
    { apply elem_of_app. right. left. }
    repeat split; try done.
    + apply elem_of_app. right. left.
    + apply (does_ip_exist_known _ _ _ ip Hip).
      eexists. split; [exact Hrow|]. simpl. by rewrite Hu.
  - intros user b new_uid db request Hip Hfresh Huser.
    destruct (add_allowed_ip_completes user b new_uid db Hfresh Huser)
      as [db' Hadd].
    exists db'. split; [exact Hadd|].
    apply add_allowed_ip_completed in Hadd as [_ ->]. simpl.
    assert (Hk : known
                   (mkDB (users db)
                      (known_ips db ++ [KnownIps.mk new_uid b (Some (User.uid user))])
                      (banned_ips db)) user b).
    { eexists. split; [apply elem_of_app; right; left|]. done. }
    split; [done|]. split; [done|]. split; [done|]. split; [|split].
    + intros Hnk. by apply (does_ip_exist_unknown _ _ _ b Hip).
    + by apply (does_ip_exist_known _ _ _ b Hip).
    + intros Hb. by apply (does_ip_exist_trusted _ _ _ b Hip).
  - intros * Hadd Hip.
    apply add_allowed_ip_completed in Hadd as [-> ->].
    assert (Hk : known
                   (mkDB (users db)
                      (known_ips db ++ [KnownIps.mk new_uid b (Some (User.uid user))])
                      (banned_ips db)) user b).
    { eexists. split; [apply elem_of_app; right; left|]. done. }
    split.
    + by apply (does_ip_exist_known _ _ _ b Hip).
    + intros Hb. by apply (does_ip_exist_trusted _ _ _ b Hip).
Qed.

Example spec_example_registration :
  register_new_user sample_location sample_hash "123456" (fun _ _ => true)
    "user" registration_form (proxied "10.0.0.1") 1%N 20%N empty_db
  = (Ok "123456", db_registered).
Proof. reflexivity. Qed.

Example spec_example_new_address :
  does_ip_exist registered_u1 (proxied "10.0.0.2") db_registered
  = (Raise UnknownIpConflict, db_registered).
Proof. reflexivity. Qed.

Example spec_example_allowed :
  add_allowed_ip registered_u1 "10.0.0.2" 21%N db_registered
  = (Ok registered_u1, db_allowed).
Proof. reflexivity. Qed.

Lemma no_key_in_empty_table {K} (key : K) : key ∉ @nil K.
Proof. apply not_elem_of_nil. Qed.

Lemma allow_listing_round_trip_witness :
  (exists new_user db',
      register_new_user sample_location sample_hash "123456" (fun _ _ => true)
        "user" registration_form (proxied "10.0.0.1") 1%N 20%N empty_db
      = (Ok "123456", db')
      /\ users db' = users empty_db ++ [new_user]
      /\ User.uid new_user = 1%N
      /\ User.email new_user = "u1@example.org"
      /\ known_ips db'
         = known_ips empty_db ++ [KnownIps.mk 20%N "10.0.0.1" (Some 1%N)]
      /\ banned_ips db' = banned_ips empty_db
      /\ known db' new_user "10.0.0.1"
      /\ (does_ip_exist new_user (proxied "10.0.0.1") db').1
         <> Raise UnknownIpConflict)
  /\ (exists db',
         add_allowed_ip registered_u1 "10.0.0.2" 21%N db_registered
         = (Ok registered_u1, db')
         /\ users db' = users db_registered
         /\ known_ips db'
            = known_ips db_registered
              ++ [KnownIps.mk 21%N "10.0.0.2" (Some 1%N)]
         /\ banned_ips db' = banned_ips db_registered
         /\ (~ known db_registered registered_u1 "10.0.0.2" ->
             does_ip_exist registered_u1 (proxied "10.0.0.2") db_registered
             = (Raise UnknownIpConflict, db_registered))
         /\ (does_ip_exist registered_u1 (proxied "10.0.0.2") db').1
            <> Raise UnknownIpConflict
         /\ (~ banned db_registered registered_u1 "10.0.0.2" ->
             does_ip_exist registered_u1 (proxied "10.0.0.2") db'
             = (Ok tt, db'))).
Proof.
  split.
  - refine (proj1 allow_listing_round_trip sample_location sample_hash
              "123456" (fun _ _ => true) "user" registration_form
              (proxied "10.0.0.1") 1%N 20%N empty_db "10.0.0.1"
              _ eq_refl eq_refl eq_refl _ _ eq_refl).
    + apply no_key_in_empty_table.
    + apply no_key_in_empty_table.
  - refine (proj1 (proj2 (proj2 allow_listing_round_trip)) registered_u1
              "10.0.0.2" 21%N db_registered (proxied "10.0.0.2") eq_refl _ _).
    + intros Hin. apply list_elem_of_singleton in Hin. discriminate Hin.
    + left.
Defined.






(** * Further properties of the code *)

(** ** What the bearer verifier accepts and how it refuses *)

Section VerifierOutcomes.

Variable http_bearer : Request -> result string.
Variable decode_token : string -> option pydict.
Variable token_in_blocklist : pyval -> bool.

Let call := bearer_call http_bearer decode_token token_in_blocklist.

(** X1: whatever a verifier returns is the decoded claims of the
    presented credential, they carry a [jti] that is not revoked and are
    not of the kind the verifier refuses; the base class returns nothing. *)
Theorem bearer_accepts_only_valid self request td :
  call self request = Ok td ->
  self <> TokenBearer
  /\ exists token jti,
      http_bearer request = Ok token
      /\ decode_token token = Some td
      /\ td !! "jti" = Some jti
      /\ token_in_blocklist jti = false
      /\ ~ wrong_kind self td.
Proof.
  unfold call, bearer_call, token_valid, getitem.
  destruct (http_bearer request) as [token|]; simpl; [|done].
  destruct (decode_token token) as [td'|] eqn:Hd; [|done].
  destruct (td' !! "jti") as [jti|] eqn:Hj; simpl; [|done].
  destruct (token_in_blocklist jti) eqn:Hb; [done|].
  destruct (verify_token_data self td') as [[]|] eqn:Hv; simpl; [|done].
  intros [= <-]. split.
  - by intros ->.
  - exists token, jti. repeat split; try done.
    intros Hw. apply verify_wrong_kind in Hw. congruence.
Qed.

(** X2: claims without a [jti] end in [KeyError] before the revocation
    store is asked, under every verifier; unrevoked claims without a
    [refresh] flag end in [KeyError] under both concrete verifiers. *)
Theorem bearer_missing_claims self request token td :
  http_bearer request = Ok token ->
  decode_token token = Some td ->
  (td !! "jti" = None -> call self request = Raise (KeyError "jti"))
  /\ (forall jti,
         td !! "jti" = Some jti ->
         token_in_blocklist jti = false ->
         td !! "refresh" = None ->
         self <> TokenBearer ->
         call self request = Raise (KeyError "refresh")).
Proof.
  intros Hc Hd. split.
  - intros Hj. unfold call, bearer_call, getitem.
    rewrite Hc. simpl. by rewrite Hd, Hj.
  - intros jti Hj Hb Hr Hself. unfold call.
    rewrite (bearer_call_decoded _ _ _ _ _ _ td jti Hc Hd Hj), Hb.
    unfold verify_token_data, getitem.
    rewrite (dict_truthy_lookup _ _ _ Hj), Hr. by destruct self.
Qed.

(** X3: the kind of a token is the truth value of its [refresh] claim,
    of whatever type: of the two concrete verifiers exactly one returns
    the claims of an unrevoked token, the access verifier when the claim
    is falsy and the refresh verifier when it is truthy. *)
Theorem kind_is_truthiness request token td jti v :
  http_bearer request = Ok token ->
  decode_token token = Some td ->
  td !! "jti" = Some jti ->
  token_in_blocklist jti = false ->
  td !! "refresh" = Some v ->
  (call AccessTokenBearer request = Ok td <-> truthy v = false)
  /\ (call RefreshTokenBearer request = Ok td <-> truthy v = true)
  /\ (call AccessTokenBearer request = Ok td
      <-> call RefreshTokenBearer request <> Ok td).
Proof.
  intros Hc Hd Hj Hb Hr. unfold call.
  rewrite !(bearer_call_decoded _ _ _ _ _ _ td jti Hc Hd Hj), Hb.
  unfold verify_token_data, getitem.
  rewrite (dict_truthy_lookup _ _ _ Hj), Hr.
  simpl. destruct (truthy v); simpl; intuition congruence.
Qed.

(** X4: a verifier raises nothing but the framework's own rejection,
    [InvalidToken], the [KeyError] of a missing [jti] or [refresh] claim,
    and the error of its kind check. *)
Theorem bearer_call_errors self request e :
  call self request = Raise e ->
  http_bearer request = Raise e
  \/ e = InvalidToken
  \/ e = KeyError "jti"
  \/ e = KeyError "refresh"
  \/ e = kind_error self.
Proof.
  unfold call, bearer_call, token_valid, getitem.
  destruct (http_bearer request) as [token|]; simpl; [|intros [= ->]; by left].
  destruct (decode_token token) as [td|]; [|intros [= <-]; tauto].
  destruct (td !! "jti") as [jti|]; simpl; [|intros [= <-]; tauto].
  destruct (token_in_blocklist jti); [intros [= <-]; tauto|].
  unfold verify_token_data, getitem.
  destruct self; simpl; [intros [= <-]; tauto| |];
    destruct (dict_truthy td); simpl; try done;
    destruct (td !! "refresh") as [v|]; simpl; try (intros [= <-]; tauto);
    destruct (truthy v); simpl; try done; intros [= <-]; tauto.
Qed.

End VerifierOutcomes.

Lemma bearer_accepts_only_valid_witness :
  AccessTokenBearer <> TokenBearer
  /\ exists token jti,
      sends "access-token" bare_request = Ok token
      /\ sample_decode token = Some access_claims
      /\ access_claims !! "jti" = Some jti
      /\ (fun _ : pyval => false) jti = false
      /\ ~ wrong_kind AccessTokenBearer access_claims.
Proof.
  exact (bearer_accepts_only_valid (sends "access-token") sample_decode
           (fun _ => false) AccessTokenBearer bare_request access_claims
           eq_refl).
Defined.

Lemma bearer_missing_claims_witness :
  bearer_call (sends "t") (decodes_to anonymous_claims) (fun _ => true)
    AccessTokenBearer bare_request = Raise (KeyError "jti").
Proof.
  exact (proj1 (bearer_missing_claims (sends "t") (decodes_to anonymous_claims)
                  (fun _ => true) AccessTokenBearer bare_request "t"
                  anonymous_claims eq_refl eq_refl) eq_refl).
Defined.

Lemma kind_is_truthiness_witness :
  bearer_call (sends "t") (decodes_to stringly_claims) (fun _ => false)
    RefreshTokenBearer bare_request = Ok stringly_claims.
Proof.
  exact (proj2 (proj1 (proj2 (kind_is_truthiness (sends "t")
                                (decodes_to stringly_claims) (fun _ => false)
                                bare_request "t" stringly_claims (VStr "j3")
                                (VStr "false") eq_refl eq_refl eq_refl
                                eq_refl eq_refl))) eq_refl).
Defined.

Lemma bearer_call_errors_witness :
  sends "refresh-token" bare_request = Raise AccessTokenRequired
  \/ AccessTokenRequired = InvalidToken
  \/ AccessTokenRequired = KeyError "jti"
  \/ AccessTokenRequired = KeyError "refresh"
  \/ AccessTokenRequired = kind_error AccessTokenBearer.
Proof.
  exact (bearer_call_errors (sends "refresh-token") sample_decode
           (fun _ => false) AccessTokenBearer bare_request
           AccessTokenRequired eq_refl).
Defined.

(** ** The text operations behind the client address *)

Lemma append_cons c (s t : string) : String c s +:+ t = String c (s +:+ t).
Proof. reflexivity. Qed.

Lemma append_empty_r (s : string) : s +:+ EmptyString = s.
Proof. induction s as [|c s IH]; [done|]. by rewrite append_cons, IH. Qed.

Lemma has_char_cons c d s :
  has_char c (String d s) = Ascii.eqb d c || has_char c s.
Proof. unfold has_char. simpl. by destruct (Ascii.eqb d c). Qed.

Lemma first_field_no_comma s : has_char ","%char (first_field s) = false.
Proof.
  induction s as [|c s IH]; [done|]. simpl.
  destruct (Ascii.eqb c ","%char) eqn:E; [done|].
  by rewrite has_char_cons, E, IH.
Qed.

Lemma lstrip_spec s :
  exists l, s = l +:+ lstrip s
            /\ all_chars py_isspace l = true
            /\ starts_with_space (lstrip s) = false.
Proof.
  induction s as [|c s (l & IH & Hl & Hs)]; [by exists EmptyString|].
  simpl. destruct (py_isspace c) eqn:E.
  - exists (String c l). rewrite append_cons, <- IH. simpl. by rewrite E, Hl.
  - exists EmptyString. simpl. by rewrite E.
Qed.

Lemma rstrip_spec s :
  exists r, s = rstrip s +:+ r
            /\ all_chars py_isspace r = true
            /\ ends_with_space (rstrip s) = false.
Proof.
  induction s as [|c s (r & IH & Hr & Hs)]; [by exists EmptyString|].
  simpl. destruct (rstrip s) as [|d kept] eqn:E.
  - simpl in IH. subst s. destruct (py_isspace c) eqn:Ec.
    + exists (String c r). simpl. by rewrite Ec, Hr.
    + exists r. simpl. by rewrite Ec.
  - exists r. rewrite append_cons, <- IH. done.
Qed.

Lemma rstrip_keeps_start s :
  starts_with_space s = false -> starts_with_space (rstrip s) = false.
Proof.
  destruct s as [|c s]; [done|]. simpl. intros Hc.
  destruct (rstrip s); simpl; by rewrite ?Hc.
Qed.

Lemma lstrip_chars c s : has_char c (lstrip s) = true -> has_char c s = true.
Proof.
  induction s as [|d s IH]; [done|]. simpl.
  destruct (py_isspace d); [|done].
  intros H. rewrite has_char_cons, (IH H). apply orb_true_r.
Qed.

Lemma rstrip_chars c s : has_char c (rstrip s) = true -> has_char c s = true.
Proof.
  induction s as [|d s IH]; [done|]. simpl.
  destruct (rstrip s) as [|d' kept].
  - destruct (py_isspace d); [done|].
    rewrite !has_char_cons. destruct (Ascii.eqb d c); [done|]. simpl. done.
  - rewrite (has_char_cons c d (String d' kept)), (has_char_cons c d s).
    destruct (Ascii.eqb d c); [done|]. simpl. exact IH.
Qed.

(** The stripped text has no white space at either end. *)
Lemma strip_removes_space_aux s :
  starts_with_space (strip s) = false /\ ends_with_space (strip s) = false.
Proof.
  unfold strip.
  destruct (lstrip_spec s) as (l & _ & _ & Hstart).
  destruct (rstrip_spec (lstrip s)) as (r & _ & _ & Hend).
  split; [by apply rstrip_keeps_start | done].
Qed.

(** X5: [strip] removes exactly the white space around the text: the
    text is a run of white space, the result, and a run of white space,
    and the result neither starts nor ends with white space. *)
Theorem strip_removes_surrounding_space s :
  (exists l r, s = l +:+ strip s +:+ r
               /\ all_chars py_isspace l = true
               /\ all_chars py_isspace r = true)
  /\ starts_with_space (strip s) = false
  /\ ends_with_space (strip s) = false.
Proof.
  unfold strip.
  destruct (lstrip_spec s) as (l & Hl & Hls & Hstart).
  destruct (rstrip_spec (lstrip s)) as (r & Hr & Hrs & Hend).
  split; [|split].
  - exists l, r. by rewrite <- Hr, <- Hl.
  - by apply rstrip_keeps_start.
  - done.
Qed.

(** The address read off a non-empty [X-Forwarded-For] header. *)
Lemma get_ip_address_forwarded request f :
  headers request !! "next-ip" = None ->
  hostname_recognized request = true ->
  headers request !! "x-forwarded-for" = Some f ->
  f <> EmptyString ->
  get_ip_address request = Ok (Some (or_loopback (strip (first_field f)))).
Proof.
  intros Hn Hr Hf Hne. unfold get_ip_address. rewrite Hn, Hr, Hf. simpl.
  destruct f as [|c f]; [done|]. simpl. by rewrite py_or_loopback.
Qed.

(** X6: the address taken from [X-Forwarded-For] holds no comma and no
    white space at either end; it is the stripped first entry, or the
    loopback address when that entry is blank. *)
Theorem forwarded_address_is_clean request f :
  headers request !! "next-ip" = None ->
  hostname_recognized request = true ->
  headers request !! "x-forwarded-for" = Some f ->
  f <> EmptyString ->
  exists a,
    get_ip_address request = Ok (Some a)
    /\ has_char ","%char a = false
    /\ starts_with_space a = false
    /\ ends_with_space a = false
    /\ (a = strip (first_field f)
        \/ strip (first_field f) = EmptyString /\ a = "127.0.0.1").
Proof.
  intros Hn Hr Hf Hne. eexists.
  split; [by apply get_ip_address_forwarded|].
  unfold or_loopback.
  destruct (strip (first_field f)) as [|c t] eqn:E; simpl str_truthy; cbv iota.
  - repeat split; try reflexivity. by right.
  - rewrite <- E.
    destruct (strip_removes_space_aux (first_field f)) as (Hs & He).
    repeat split; try done; [|by left].
    destruct (has_char ","%char (strip (first_field f))) eqn:Hc; [|done].
    unfold strip in Hc. apply rstrip_chars, lstrip_chars in Hc.
    by rewrite first_field_no_comma in Hc.
Qed.

Lemma forwarded_address_is_clean_witness :
  exists a,
    get_ip_address forwarded_request = Ok (Some a)
    /\ has_char ","%char a = false
    /\ starts_with_space a = false
    /\ ends_with_space a = false
    /\ (a = strip (first_field " 9.9.9.9 , 10.1.1.1")
        \/ strip (first_field " 9.9.9.9 , 10.1.1.1") = EmptyString
           /\ a = "127.0.0.1").
Proof.
  refine (forwarded_address_is_clean forwarded_request " 9.9.9.9 , 10.1.1.1"
            eq_refl eq_refl eq_refl _).
  discriminate.
Defined.

(** ** The outcomes of identity resolution *)

(** The three outcomes of [does_ip_exist] on a resolved address. *)
Lemma does_ip_exist_cases db user request ip :
  get_ip_address request = Ok (Some ip) ->
  (~ known db user ip
   /\ does_ip_exist user request db = (Raise UnknownIpConflict, db))
  \/ (known db user ip /\ banned db user ip
      /\ does_ip_exist user request db = (Raise BannedIp, db))
  \/ (known db user ip /\ ~ banned db user ip
      /\ does_ip_exist user request db = (Ok tt, db)).
Proof.
  intros Hip.
  destruct (decide (known db user ip)) as [Hk|Hk].
  - destruct (decide (banned db user ip)) as [Hb|Hb].
    + right. left. eauto using does_ip_exist_banned.
    + right. right. eauto using does_ip_exist_trusted.
  - left. eauto using does_ip_exist_unknown.
Qed.

(** The subject of the claims has no row: the look-up fails before the
    request is read. *)
Lemma get_current_user_no_row token_details request db e :
  token_email token_details e ->
  user_by_email db e = None ->
  get_current_user token_details request db = (Raise UserNotFound, db).
Proof.
  intros (claims & Hu & He) Hrow.
  unfold get_current_user, does_user_exist, lift, select_first, getitem.
  unfold mbind at 1 2 3 4, session_bind. rewrite Hu. simpl.
  unfold getitem. rewrite He. simpl.
  unfold user_by_email in Hrow.
  unfold mbind, session_bind. cbv beta. by rewrite Hrow.
Qed.

(** X7: on a resolved client address, [get_current_user] returns a user
    exactly when the row found for the e-mail of the claims is that
    user, the address is known and not banned for the user, and the
    account is not blocked. *)
Theorem get_current_user_returns_iff token_details request db ip e user :
  get_ip_address request = Ok (Some ip) ->
  token_email token_details e ->
  (get_current_user token_details request db).1 = Ok user
  <-> user_by_email db e = Some user
      /\ known db user ip /\ ~ banned db user ip
      /\ User.isBlocked user = false.
Proof.
  intros Hip Ht.
  destruct (user_by_email db e) as [row|] eqn:Hrow.
  - rewrite (get_current_user_resolved _ _ _ _ _ Ht Hrow).
    destruct (does_ip_exist_cases db row request ip Hip)
      as [(Hk & ->)|[(Hk & Hb & ->)|(Hk & Hb & ->)]]; simpl.
    + split; [done|]. by intros ([= ->] & ? & _).
    + split; [done|]. by intros ([= ->] & _ & ? & _).
    + destruct (User.isBlocked row) eqn:Hbl; simpl.
      * split; [done|]. intros ([= ->] & _ & _ & ?). congruence.
      * split; [by intros [= ->]|]. by intros ([= ->] & _).
  - rewrite (get_current_user_no_row _ _ _ _ Ht Hrow). simpl.
    split; [done|]. by intros (? & _).
Qed.

(** X8: the block flag is looked at last: [get_current_user] raises
    [UserBlocked] exactly when the account found is blocked and its
    address is known and not banned. *)
Theorem user_blocked_iff token_details request db ip e :
  get_ip_address request = Ok (Some ip) ->
  token_email token_details e ->
  (get_current_user token_details request db).1 = Raise UserBlocked
  <-> exists user,
        user_by_email db e = Some user
        /\ known db user ip /\ ~ banned db user ip
        /\ User.isBlocked user = true.
Proof.
  intros Hip Ht.
  destruct (user_by_email db e) as [row|] eqn:Hrow.
  - rewrite (get_current_user_resolved _ _ _ _ _ Ht Hrow).
    destruct (does_ip_exist_cases db row request ip Hip)
      as [(Hk & ->)|[(Hk & Hb & ->)|(Hk & Hb & ->)]]; simpl.
    + split; [done|]. by intros (? & [= <-] & ? & _).
    + split; [done|]. by intros (? & [= <-] & _ & ? & _).
    + destruct (User.isBlocked row) eqn:Hbl; simpl.
      * split; [eauto 6|done].
      * split; [done|]. intros (? & [= <-] & _ & _ & ?). congruence.
  - rewrite (get_current_user_no_row _ _ _ _ Ht Hrow). simpl.
    split; [done|]. by intros (? & ? & _).
Qed.

(** X9: claims that do not name a user are refused before the store or
    the request is read: without a [user] entry and without an [email]
    entry with [KeyError], with a [user] entry that is no dict with
    [TypeError]; claims whose e-mail is null or has no row end in
    [UserNotFound], on every request. *)
Theorem get_current_user_unnamed_subject token_details request db :
  (token_details !! "user" = None ->
   get_current_user token_details request db = (Raise (KeyError "user"), db))
  /\ (forall v, token_details !! "user" = Some v ->
                (forall d, v <> VDict d) ->
                get_current_user token_details request db
                = (Raise TypeError, db))
  /\ (forall d, token_details !! "user" = Some (VDict d) ->
                d !! "email" = None ->
                get_current_user token_details request db
                = (Raise (KeyError "email"), db))
  /\ (forall d, token_details !! "user" = Some (VDict d) ->
                d !! "email" = Some VNone ->
                get_current_user token_details request db
                = (Raise UserNotFound, db))
  /\ (forall e, token_email token_details e ->
                user_by_email db e = None ->
                get_current_user token_details request db
                = (Raise UserNotFound, db)).
Proof.
  split; [|split; [|split; [|split]]].
  - intros Hu. unfold get_current_user, lift, getitem.
    unfold mbind at 1, session_bind. by rewrite Hu.
  - intros v Hu Hv. unfold get_current_user, lift, getitem.
    unfold mbind at 1 2, session_bind. rewrite Hu. simpl.
    destruct v; try done. by destruct (Hv d).
  - intros d Hu He. unfold get_current_user, lift, getitem.
    unfold mbind at 1 2, session_bind. rewrite Hu. simpl.
    unfold getitem. by rewrite He.
  - intros d Hu He.
    unfold get_current_user, does_user_exist, lift, select_first, getitem.
    unfold mbind at 1 2 3 4, session_bind. rewrite Hu. simpl.
    unfold getitem. rewrite He. simpl.
    unfold mbind, session_bind. cbv beta.
    replace (head (filter _ (users db))) with (@None User.t); [done|].
    symmetry. apply head_filter_none. by intros u _ ?.
  - apply get_current_user_no_row.
Qed.

Lemma filter_snoc_false {R} (cond : R -> Prop) `{!forall r, Decision (cond r)}
    (l : list R) (row : R) :
  ~ cond row -> filter cond (l ++ [row]) = filter cond l.
Proof.
  intros Hrow. rewrite filter_app, (filter_cons_False _ _ _ Hrow), filter_nil.
  apply app_nil_r.
Qed.

(** X10: allow-listing an address for one user changes nothing for
    another: [does_ip_exist] for a user of a different key has the same
    outcome before and after. *)
Theorem allow_listing_is_per_user user other b new_uid db r db' request :
  add_allowed_ip other b new_uid db = (Ok r, db') ->
  User.uid other <> User.uid user ->
  (does_ip_exist user request db').1 = (does_ip_exist user request db).1.
Proof.
  intros Hadd Hne. apply add_allowed_ip_completed in Hadd as [_ ->].
  unfold does_ip_exist, lift, select_first.
  unfold mbind, session_bind. cbv beta.
  destruct (get_ip_address request) as [ip|]; [|done]. simpl.
  rewrite filter_snoc_false; [|simpl; intros [[= ?] _]; done].
  destruct (head (filter _ (known_ips db))); [|done]. simpl.
  by destruct (head (filter _ (banned_ips db))).
Qed.

(** X11: allow-listing does not lift a ban: when the address is banned
    for the user, [does_ip_exist] from that address raises [BannedIp]
    after a completed [add_allowed_ip] as well. *)
Theorem allow_listing_does_not_unban user b new_uid db r db' request :
  add_allowed_ip user b new_uid db = (Ok r, db') ->
  get_ip_address request = Ok (Some b) ->
  banned db user b ->
  does_ip_exist user request db' = (Raise BannedIp, db').
Proof.
  intros Hadd Hip (row & Hin & Hrow).
  apply add_allowed_ip_completed in Hadd as [_ ->].
  apply (does_ip_exist_banned _ _ _ b Hip).
  - eexists. split; [apply elem_of_app; right; left|]. done.
  - by exists row.
Qed.

Lemma access_claims_subject : token_email access_claims "u1@example.org".
Proof. exists {[ "email" := VStr "u1@example.org" ]}. split; reflexivity. Qed.

Lemma known_first_row db user ip row rest :
  known_ips db = row :: rest ->
  KnownIps.userUid row = Some (User.uid user) ->
  KnownIps.ip row = ip ->
  known db user ip.
Proof. intros Hl Hu Hi. exists row. rewrite Hl. split; [left|done]. Qed.

Lemma banned_first_row db user ip row rest :
  banned_ips db = row :: rest ->
  BannedIps.userUid row = Some (User.uid user) ->
  BannedIps.ip row = ip ->
  banned db user ip.
Proof. intros Hl Hu Hi. exists row. rewrite Hl. split; [left|done]. Qed.

Lemma not_banned_empty db user ip : banned_ips db = [] -> ~ banned db user ip.
Proof. intros Hl (row & Hin & _). rewrite Hl in Hin. by apply elem_of_nil in Hin. Qed.

Lemma get_current_user_returns_iff_witness :
  (get_current_user access_claims (proxied "10.0.0.1") db_two_users).1 = Ok u1.
Proof.
  refine (proj2 (get_current_user_returns_iff access_claims (proxied "10.0.0.1")
                   db_two_users "10.0.0.1" "u1@example.org" u1 eq_refl
                   access_claims_subject) _).
  split; [reflexivity|]. split; [|split; [|reflexivity]].
  - exact (known_first_row db_two_users u1 "10.0.0.1" _ _ eq_refl eq_refl eq_refl).
  - exact (not_banned_empty db_two_users u1 "10.0.0.1" eq_refl).
Defined.

Lemma user_blocked_iff_witness :
  (get_current_user access_claims (proxied "10.0.0.1") db_blocked_known).1
  = Raise UserBlocked.
Proof.
  refine (proj2 (user_blocked_iff access_claims (proxied "10.0.0.1")
                   db_blocked_known "10.0.0.1" "u1@example.org" eq_refl
                   access_claims_subject) _).
  exists u1_blocked. split; [reflexivity|]. split; [|split; [|reflexivity]].
  - exact (known_first_row db_blocked_known u1_blocked "10.0.0.1" _ _
             eq_refl eq_refl eq_refl).
  - exact (not_banned_empty db_blocked_known u1_blocked "10.0.0.1" eq_refl).
Defined.

Lemma get_current_user_unnamed_subject_witness :
  get_current_user subjectless_claims peerless_request db_two_users
  = (Raise (KeyError "user"), db_two_users)
  /\ get_current_user null_email_claims peerless_request db_two_users
     = (Raise UserNotFound, db_two_users).
Proof.
  split.
  - exact (proj1 (get_current_user_unnamed_subject subjectless_claims
                    peerless_request db_two_users) eq_refl).
  - exact (proj1 (proj2 (proj2 (proj2 (get_current_user_unnamed_subject
                                         null_email_claims peerless_request
                                         db_two_users))))
             {[ "email" := VNone ]} eq_refl eq_refl).
Defined.

Lemma allow_listing_is_per_user_witness :
  (does_ip_exist u1 (proxied "10.0.0.7") db_two_users_allowed).1
  = (does_ip_exist u1 (proxied "10.0.0.7") db_two_users).1.
Proof.
  refine (allow_listing_is_per_user u1 u2 "10.0.0.7" 22%N db_two_users u2
            db_two_users_allowed (proxied "10.0.0.7") eq_refl _).
  discriminate.
Defined.

Lemma allow_listing_does_not_unban_witness :
  does_ip_exist u1 (proxied "10.0.0.9") db_known_and_banned_again
  = (Raise BannedIp, db_known_and_banned_again).
Proof.
  refine (allow_listing_does_not_unban u1 "10.0.0.9" 23%N db_known_and_banned
            u1 db_known_and_banned_again (proxied "10.0.0.9") eq_refl eq_refl _).
  exact (banned_first_row db_known_and_banned u1 "10.0.0.9" _ _
           eq_refl eq_refl eq_refl).
Defined.

(** ** Logging in *)

Section AuthenticationFacts.

Variable verifyHashKey : string -> string -> bool.

(** [authenticate_user] once the row of the e-mail is found: the IP
    checks, then the password. *)
Lemma authenticate_user_found form_data request db user :
  user_by_email db (UserCreateOrLoginSchema.email form_data) = Some user ->
  authenticate_user verifyHashKey form_data request db =
    match does_ip_exist user request db with
    | (Ok _, db') =>
        if verifyHashKey (UserCreateOrLoginSchema.password form_data)
                         (User.passwordHash user)
        then (LoggedIn user, db')
        else (Refused InvalidCredentials, db')
    | (Raise e, db') => (Refused (Resolution e), db')
    end.
Proof.
  intros Hrow. unfold user_by_email in Hrow.
  unfold authenticate_user, get_user_by_email_or_uid, select_first, resolve.
  unfold mbind, login_bind. cbv beta. rewrite Hrow.
  destruct (does_ip_exist user request db) as [[[]|e] db']; [|done].
  by destruct (verifyHashKey _ _).
Qed.

Lemma authenticate_user_no_row form_data request db :
  user_by_email db (UserCreateOrLoginSchema.email form_data) = None ->
  authenticate_user verifyHashKey form_data request db
  = (Refused (Resolution UserNotFound), db).
Proof.
  intros Hrow. unfold user_by_email in Hrow.
  unfold authenticate_user, get_user_by_email_or_uid, select_first, resolve.
  unfold mbind, login_bind. cbv beta. by rewrite Hrow.
Qed.

(** X12: on a resolved client address [authenticate_user] decides in
    this order and leaves the stores as they are: no row for the e-mail,
    [UserNotFound]; the address not known for the user,
    [UnknownIpConflict]; known and banned, [BannedIp]; and only then the
    password: [InvalidCredentials] when the hash check fails, the user
    when it passes. *)
Theorem authenticate_user_outcome form_data request db ip :
  get_ip_address request = Ok (Some ip) ->
  let email := UserCreateOrLoginSchema.email form_data in
  let password := UserCreateOrLoginSchema.password form_data in
  let outcome := authenticate_user verifyHashKey form_data request db in
  (user_by_email db email = None ->
   outcome = (Refused (Resolution UserNotFound), db))
  /\ (forall user,
         user_by_email db email = Some user ->
         (~ known db user ip ->
          outcome = (Refused (Resolution UnknownIpConflict), db))
         /\ (known db user ip -> banned db user ip ->
             outcome = (Refused (Resolution BannedIp), db))
         /\ (known db user ip -> ~ banned db user ip ->
             verifyHashKey password (User.passwordHash user) = false ->
             outcome = (Refused InvalidCredentials, db))
         /\ (known db user ip -> ~ banned db user ip ->
             verifyHashKey password (User.passwordHash user) = true ->
             outcome = (LoggedIn user, db))).
Proof.
  intros Hip email password outcome. subst email password outcome. split.
  - apply authenticate_user_no_row.
  - intros user Hrow. rewrite (authenticate_user_found _ _ _ _ Hrow).
    split; [|split; [|split]].
    + intros Hk. by rewrite (does_ip_exist_unknown _ _ _ _ Hip Hk).
    + intros Hk Hb. by rewrite (does_ip_exist_banned _ _ _ _ Hip Hk Hb).
    + intros Hk Hb Hv. by rewrite (does_ip_exist_trusted _ _ _ _ Hip Hk Hb), Hv.
    + intros Hk Hb Hv. by rewrite (does_ip_exist_trusted _ _ _ _ Hip Hk Hb), Hv.
Qed.

(** X13: [authenticate_user] does not look at the block flag: a blocked
    account with the right password, at a known and unbanned address,
    logs in, while [get_current_user] on claims that name the account
    raises [UserBlocked] for the same request. *)
Theorem blocked_account_logs_in form_data token_details request db ip user :
  get_ip_address request = Ok (Some ip) ->
  user_by_email db (UserCreateOrLoginSchema.email form_data) = Some user ->
  token_email token_details (UserCreateOrLoginSchema.email form_data) ->
  known db user ip -> ~ banned db user ip ->
  verifyHashKey (UserCreateOrLoginSchema.password form_data)
                (User.passwordHash user) = true ->
  User.isBlocked user = true ->
  authenticate_user verifyHashKey form_data request db = (LoggedIn user, db)
  /\ get_current_user token_details request db = (Raise UserBlocked, db).
Proof.
  intros Hip Hrow Ht Hk Hb Hv Hbl. split.
  - by rewrite (authenticate_user_found _ _ _ _ Hrow),
      (does_ip_exist_trusted _ _ _ _ Hip Hk Hb), Hv.
  - by rewrite (get_current_user_resolved _ _ _ _ _ Ht Hrow),
      (does_ip_exist_trusted _ _ _ _ Hip Hk Hb), Hbl.
Qed.

End AuthenticationFacts.

Lemma authenticate_user_outcome_witness :
  authenticate_user sample_verify wrong_password_form (proxied "10.0.0.2")
    db_registered
  = (Refused (Resolution UnknownIpConflict), db_registered)
  /\ authenticate_user sample_verify wrong_password_form (proxied "10.0.0.1")
       db_registered
     = (Refused InvalidCredentials, db_registered)
  /\ authenticate_user sample_verify registration_form (proxied "10.0.0.1")
       db_registered
     = (LoggedIn registered_u1, db_registered).
Proof.
  split; [|split].
  - refine (proj1 (proj2 (authenticate_user_outcome sample_verify
                            wrong_password_form (proxied "10.0.0.2")
                            db_registered "10.0.0.2" eq_refl)
                     registered_u1 eq_refl) _).
    intros (k & Hin & _ & Hi).
    apply list_elem_of_singleton in Hin. subst k. discriminate Hi.
  - refine (proj1 (proj2 (proj2 (proj2 (authenticate_user_outcome sample_verify
                            wrong_password_form (proxied "10.0.0.1")
                            db_registered "10.0.0.1" eq_refl)
                     registered_u1 eq_refl))) _ _ eq_refl).
    + exact (known_first_row db_registered registered_u1 "10.0.0.1" _ _
               eq_refl eq_refl eq_refl).
    + exact (not_banned_empty db_registered registered_u1 "10.0.0.1" eq_refl).
  - refine (proj2 (proj2 (proj2 (proj2 (authenticate_user_outcome sample_verify
                            registration_form (proxied "10.0.0.1")
                            db_registered "10.0.0.1" eq_refl)
                     registered_u1 eq_refl))) _ _ eq_refl).
    + exact (known_first_row db_registered registered_u1 "10.0.0.1" _ _
               eq_refl eq_refl eq_refl).
    + exact (not_banned_empty db_registered registered_u1 "10.0.0.1" eq_refl).
Defined.

Lemma blocked_account_logs_in_witness :
  authenticate_user sample_verify registration_form (proxied "10.0.0.1")
    db_registered_blocked
  = (LoggedIn registered_u1_blocked, db_registered_blocked)
  /\ get_current_user access_claims (proxied "10.0.0.1") db_registered_blocked
     = (Raise UserBlocked, db_registered_blocked).
Proof.
  refine (blocked_account_logs_in sample_verify registration_form access_claims
            (proxied "10.0.0.1") db_registered_blocked "10.0.0.1"
            registered_u1_blocked eq_refl eq_refl access_claims_subject
            _ _ eq_refl eq_refl).
  - exact (known_first_row db_registered_blocked registered_u1_blocked
             "10.0.0.1" _ _ eq_refl eq_refl eq_refl).
  - exact (not_banned_empty db_registered_blocked registered_u1_blocked
             "10.0.0.1" eq_refl).
Defined.

(** ** The constraints of the tables are kept *)

Lemma NoDup_fmap_snoc {R K} (f : R -> K) (l : list R) (row : R) :
  NoDup (f <$> l) -> f row ∉ f <$> l -> NoDup (f <$> l ++ [row]).
Proof.
  intros Hl Hrow. rewrite fmap_app. apply NoDup_app. split; [done|]. split.
  - intros x Hx Hin. apply list_elem_of_singleton in Hin. by subst x.
  - apply NoDup_singleton.
Qed.

Lemma NoDup_fmap_filter {R K} (f : R -> K) (cond : R -> Prop)
    `{!forall r, Decision (cond r)} (l : list R) :
  NoDup (f <$> l) -> NoDup (f <$> filter cond l).
Proof.
  intros Hl. eapply sublist_NoDup; [exact Hl|].
  apply fmap_sublist, sublist_filter.
Qed.

Lemma user_ref_ok_mono db db' ref :
  (forall u, u ∈ User.uid <$> users db -> u ∈ User.uid <$> users db') ->
  user_ref_ok db ref -> user_ref_ok db' ref.
Proof. intros Hsub. destruct ref; simpl; auto. Qed.

Section Preservation.

Context {A B : Type}.

Lemma read_only_preserves (m : session A) : read_only m -> preserves m.
Proof. intros Hm db Hdb. by rewrite Hm. Qed.

Lemma preserves_bind (m : session A) (k : A -> session B) :
  preserves m -> (forall a, preserves (k a)) -> preserves (m ≫= k).
Proof.
  intros Hm Hk db Hdb. unfold mbind, session_bind.
  specialize (Hm db Hdb). destruct (m db) as [[a|e] db']; simpl in *.
  - by apply Hk.
  - done.
Qed.

End Preservation.

Lemma insert_user_preserves row : preserves (insert_user row).
Proof.
  intros db [Hu He Hk Hb Hkr Hbr]. unfold insert_user.
  case_decide as Hd; simpl; [done|].
  assert (Hfu : User.uid row ∉ User.uid <$> users db) by tauto.
  assert (Hfe : User.email row ∉ User.email <$> users db) by tauto.
  assert (Hsub : forall u, u ∈ User.uid <$> users db ->
                           u ∈ User.uid <$> users db ++ [row]).
  { intros u Hin. rewrite fmap_app. apply elem_of_app. by left. }
  split; simpl.
  - by apply NoDup_fmap_snoc.
  - by apply NoDup_fmap_snoc.
  - done.
  - done.
  - intros k Hin. eapply user_ref_ok_mono; [exact Hsub|]. by apply Hkr.
  - intros b Hin. eapply user_ref_ok_mono; [exact Hsub|]. by apply Hbr.
Qed.

Lemma insert_known_ip_preserves row : preserves (insert_known_ip row).
Proof.
  intros db [Hu He Hk Hb Hkr Hbr]. unfold insert_known_ip.
  case_decide as Hd; simpl; [done|].
  assert (Hfk : KnownIps.uid row ∉ KnownIps.uid <$> known_ips db) by tauto.
  assert (Href : user_ref_ok db (KnownIps.userUid row))
    by (apply dec_stable; tauto).
  split; simpl; try done.
  - by apply NoDup_fmap_snoc.
  - intros k [Hin|Hin]%elem_of_app.
    + by apply Hkr.
    + apply list_elem_of_singleton in Hin. by subst k.
Qed.

Lemma delete_banned_ip_preserves row : preserves (delete_banned_ip row).
Proof.
  intros db [Hu He Hk Hb Hkr Hbr]. unfold delete_banned_ip.
  split; simpl; try done.
  - by apply NoDup_fmap_filter.
  - intros b [_ Hin]%list_elem_of_filter. by apply Hbr.
Qed.

Lemma remove_user_preserves user : preserves (remove_user user).
Proof.
  intros db [Hu He Hk Hb Hkr Hbr]. unfold remove_user.
  assert (Href : forall ref,
             ref ≠ Some (User.uid user) ->
             user_ref_ok db ref ->
             user_ref_ok
               (mkDB (filter (fun u => User.uid u ≠ User.uid user) (users db))
                  (filter (fun k => KnownIps.userUid k ≠ Some (User.uid user))
                     (known_ips db))
                  (filter (fun b => BannedIps.userUid b ≠ Some (User.uid user))
                     (banned_ips db))) ref).
  { intros [u|] Hne; simpl; [|done].
    intros (row & -> & Hin)%list_elem_of_fmap.
    apply list_elem_of_fmap. exists row. split; [done|].
    apply list_elem_of_filter. split; [|done]. congruence. }
  split; simpl.
  - by apply NoDup_fmap_filter.
  - by apply NoDup_fmap_filter.
  - by apply NoDup_fmap_filter.
  - by apply NoDup_fmap_filter.
  - intros k [Hne Hin]%list_elem_of_filter. apply Href; [done|]. by apply Hkr.
  - intros b [Hne Hin]%list_elem_of_filter. apply Href; [done|]. by apply Hbr.
Qed.

Lemma add_allowed_ip_preserves user ip new_uid :
  preserves (add_allowed_ip user ip new_uid).
Proof.
  unfold add_allowed_ip. apply preserves_bind.
  - apply insert_known_ip_preserves.
  - intros _. apply read_only_preserves, read_only_ret.
Qed.

Lemma remove_banned_ip_preserves user ip :
  preserves (remove_banned_ip user ip).
Proof.
  unfold remove_banned_ip. apply preserves_bind.
  - apply read_only_preserves, read_only_select_first.
  - intros [row|].
    + apply delete_banned_ip_preserves.
    + apply read_only_preserves, read_only_ret.
Qed.

Lemma register_new_user_preserves
    get_location generateHashKey verification_code store_verification_code
    permission form_data request user_uid ip_uid :
  preserves (register_new_user get_location generateHashKey verification_code
               store_verification_code permission form_data request
               user_uid ip_uid).
Proof.
  unfold register_new_user, get_user_by_email_or_uid.
  apply preserves_bind;
    [apply read_only_preserves, read_only_select_first|intros user].
  apply preserves_bind; [apply read_only_preserves, read_only_lift|intros ip].
  destruct ip as [ip|]; [|apply read_only_preserves, read_only_raise].
  destruct user; [apply read_only_preserves, read_only_raise|].
  apply preserves_bind;
    [apply read_only_preserves, read_only_lift|intros location].
  apply preserves_bind; [apply insert_user_preserves|intros _].
  apply preserves_bind; [apply insert_known_ip_preserves|intros _].
  apply preserves_bind; [apply read_only_preserves, read_only_lift|intros _].
  apply read_only_preserves, read_only_ret.
Qed.

(** X14: every service that writes keeps the constraints of the tables,
    whether it returns or raises: unique keys and e-mails, and IP rows
    that belong to a stored user. *)
Theorem writers_keep_constraints db :
  consistent db ->
  (forall user ip new_uid, consistent (add_allowed_ip user ip new_uid db).2)
  /\ (forall user ip, consistent (remove_banned_ip user ip db).2)
  /\ (forall user, consistent (remove_user user db).2)
  /\ (forall get_location generateHashKey verification_code
             store_verification_code permission form_data request
             user_uid ip_uid,
         consistent
           (register_new_user get_location generateHashKey verification_code
              store_verification_code permission form_data request
              user_uid ip_uid db).2).
Proof.
  intros Hdb. split; [|split; [|split]]; intros.
  - by apply add_allowed_ip_preserves.
  - by apply remove_banned_ip_preserves.
  - by apply remove_user_preserves.
  - by apply register_new_user_preserves.
Qed.

Lemma empty_db_consistent : consistent empty_db.
Proof.
  split; simpl; try apply NoDup_nil_2; intros ? Hin; by apply elem_of_nil in Hin.
Qed.

Lemma writers_keep_constraints_witness :
  consistent
    (register_new_user sample_location sample_hash "123456" (fun _ _ => true)
       "user" registration_form (proxied "10.0.0.1") 1%N 20%N empty_db).2.
Proof.
  exact (proj2 (proj2 (proj2 (writers_keep_constraints empty_db
                                empty_db_consistent)))
           sample_location sample_hash "123456" (fun _ _ => true) "user"
           registration_form (proxied "10.0.0.1") 1%N 20%N).
Defined.

(** ** Registration *)

Section RegistrationFacts.

Variable get_location : string -> option LocationSchema.t.
Variable generateHashKey : string -> string.
Variable verification_code : string.
Variable store_verification_code : UUID -> string -> bool.

Let register :=
  register_new_user get_location generateHashKey verification_code
    store_verification_code.

(** The two rows that [register_new_user] commits, in this order, before
    it stores the verification code. *)
Lemma register_new_user_run permission form_data request user_uid ip_uid db
    outcome db' :
  register permission form_data request user_uid ip_uid db = (outcome, db') ->
  (db' = db
   /\ (outcome = Raise AttributeError \/ outcome = Raise UserAlreadyExists
       \/ outcome = Raise ClientError \/ outcome = Raise IntegrityError))
  \/ exists ip new_user,
       get_ip_address request = Ok (Some ip)
       /\ user_by_email db (UserCreateOrLoginSchema.email form_data) = None
       /\ (user_uid ∉ User.uid <$> users db)
       /\ User.uid new_user = user_uid
       /\ User.email new_user = UserCreateOrLoginSchema.email form_data
       /\ User.passwordHash new_user
          = generateHashKey (UserCreateOrLoginSchema.password form_data)
       /\ User.isBlocked new_user = false
       /\ User.isCompany new_user
          = (bool_decide (permission = "company")
             || bool_decide (permission = "superuser"))
       /\ User.isSuperuser new_user = bool_decide (permission = "superuser")
       /\ ((db' = mkDB (users db ++ [new_user]) (known_ips db) (banned_ips db)
            /\ outcome = Raise IntegrityError)
           \/ (db' = mkDB (users db ++ [new_user])
                       (known_ips db ++ [KnownIps.mk ip_uid ip (Some user_uid)])
                       (banned_ips db)
               /\ (outcome = Raise RedisError
                   \/ outcome = Ok verification_code))).
Proof.
  unfold register, register_new_user, get_user_by_email_or_uid, select_first,
    lift, raise, insert_user, insert_known_ip, user_by_email.
  unfold mbind, session_bind, mret, session_ret.
  destruct (get_ip_address request) as [[ip|]|e] eqn:E.
  - destruct (head (filter _ (users db))) eqn:Hrow;
      [intros [= <- <-]; left; tauto|].
    destruct (get_location ip) as [location|]; simpl;
      [|intros [= <- <-]; left; tauto].
    case_decide as Hu; simpl; [intros [= <- <-]; left; tauto|].
    intros Hrun. right.
    eexists ip, (User.mk user_uid _ _ _ _ _ _ _ _ _ _).
    split; [done|]. split; [done|]. split; [tauto|].
    do 6 (split; [reflexivity|]).
    revert Hrun. case_decide; simpl; [intros [= <- <-]; left; done|].
    destruct (store_verification_code _ _); simpl;
      intros [= <- <-]; right; tauto.
  - by destruct (get_ip_address_returned _ _ E) as (s & ? & _).
  - apply get_ip_address_raised in E as [-> _].
    intros [= <- <-]. left. tauto.
Qed.

(** X15: the flags of a registered account follow the permission
    argument alone: never blocked; a company for "company" and
    "superuser"; a superuser for "superuser" only, which is also the
    only permission whose account passes [permission_check]; and the
    stored hash is the hash of the submitted password. *)
Theorem registration_sets_flags permission form_data request user_uid ip_uid
    db code db' :
  register permission form_data request user_uid ip_uid db = (Ok code, db') ->
  exists new_user,
    new_user ∈ users db'
    /\ User.uid new_user = user_uid
    /\ User.passwordHash new_user
       = generateHashKey (UserCreateOrLoginSchema.password form_data)
    /\ User.isBlocked new_user = false
    /\ (User.isCompany new_user = true
        <-> permission = "company" \/ permission = "superuser")
    /\ (User.isSuperuser new_user = true <-> permission = "superuser")
    /\ (permission_check new_user = Ok new_user <-> permission = "superuser").
Proof.
  intros Hreg. apply register_new_user_run in Hreg as [[_ Ho]|Hreg].
  { destruct Ho as [?|[?|[?|?]]]; done. }
  destruct Hreg as (ip & new_user & _ & _ & _ & Hu & _ & Hh & Hb & Hc & Hs & Hdb).
  destruct Hdb as [[_ ?]|[-> _]]; [done|].
  exists new_user. split; [simpl; apply elem_of_app; right; left|].
  do 3 (split; [done|]).
  unfold permission_check. rewrite Hc, Hs.
  repeat split; repeat case_bool_decide; simpl in *; subst;
    try done; try tauto; try (intros; tauto); try (intros [?|?]; done).
Qed.

(** X16: an e-mail registers once: with a row of that e-mail in the
    store, [register_new_user] on a resolved client address raises
    [UserAlreadyExists] and writes nothing; and after a registration that
    returned, so does every further registration of that e-mail. *)
Theorem email_registers_once permission form_data request user_uid ip_uid
    db ip :
  get_ip_address request = Ok (Some ip) ->
  (is_Some (user_by_email db (UserCreateOrLoginSchema.email form_data)) ->
   register permission form_data request user_uid ip_uid db
   = (Raise UserAlreadyExists, db))
  /\ (forall permission0 form_data0 request0 user_uid0 ip_uid0 db0 code,
         register permission0 form_data0 request0 user_uid0 ip_uid0 db0
         = (Ok code, db) ->
         UserCreateOrLoginSchema.email form_data0
         = UserCreateOrLoginSchema.email form_data ->
         register permission form_data request user_uid ip_uid db
         = (Raise UserAlreadyExists, db)).
Proof.
  intros Hip.
  assert (Hdup : is_Some (user_by_email db
                            (UserCreateOrLoginSchema.email form_data)) ->
                 register permission form_data request user_uid ip_uid db
                 = (Raise UserAlreadyExists, db)).
  { intros [row Hrow]. unfold user_by_email in Hrow.
    unfold register, register_new_user, get_user_by_email_or_uid,
      select_first, lift, raise.
    unfold mbind, session_bind. cbv beta. by rewrite Hip, Hrow. }
  split; [done|].
  intros * Hreg He. apply Hdup.
  apply register_new_user_run in Hreg as [[_ Ho]|Hreg].
  { destruct Ho as [?|[?|[?|?]]]; done. }
  destruct Hreg as (ip0 & new_user & _ & _ & _ & _ & Hemail & _ & _ & _ & _ & Hdb).
  destruct Hdb as [[_ ?]|[-> _]]; [done|].
  unfold user_by_email. simpl.
  edestruct (head_filter_some
               (fun u => User.email u = UserCreateOrLoginSchema.email form_data)
               (users db0 ++ [new_user]) new_user) as [row ->]; [|congruence|done].
  apply elem_of_app. right. left.
Qed.

(** X17: a registration that raises has written nothing, except in two
    cases: an [IntegrityError] may leave the row of the user without its
    Known-IP row, and a [RedisError] (the verification code could not
    be stored) leaves both rows committed. *)
Theorem failed_registration_state permission form_data request user_uid ip_uid
    db e db' :
  register permission form_data request user_uid ip_uid db = (Raise e, db') ->
  (e <> IntegrityError -> e <> RedisError -> db' = db)
  /\ (e = IntegrityError ->
      db' = db
      \/ exists new_user,
           User.uid new_user = user_uid
           /\ db' = mkDB (users db ++ [new_user]) (known_ips db) (banned_ips db))
  /\ (e = RedisError ->
      exists ip new_user,
        get_ip_address request = Ok (Some ip)
        /\ User.uid new_user = user_uid
        /\ User.email new_user = UserCreateOrLoginSchema.email form_data
        /\ db' = mkDB (users db ++ [new_user])
                   (known_ips db ++ [KnownIps.mk ip_uid ip (Some user_uid)])
                   (banned_ips db)).
Proof.
  intros Hreg. apply register_new_user_run in Hreg as [[-> Ho]|Hreg].
  - split; [done|]. split; [by left|].
    intros ->. destruct Ho as [?|[?|[?|?]]]; done.
  - destruct Hreg as (ip & new_user & Hip & _ & _ & Hu & He & _ & _ & _ & _ & Hdb).
    destruct Hdb as [[-> [= ->]]|[-> [[= ->]|?]]]; [| |done].
    + split; [done|]. split; [|done]. intros _. right. by exists new_user.
    + split; [done|]. split; [done|]. intros _. by exists ip, new_user.
Qed.

End RegistrationFacts.

Lemma registration_sets_flags_witness :
  exists new_user,
    new_user ∈ users db_registered
    /\ User.uid new_user = 1%N
    /\ User.passwordHash new_user = sample_hash "secret1"
    /\ User.isBlocked new_user = false
    /\ (User.isCompany new_user = true
        <-> "user" = "company" \/ "user" = "superuser")
    /\ (User.isSuperuser new_user = true <-> "user" = "superuser")
    /\ (permission_check new_user = Ok new_user <-> "user" = "superuser").
Proof.
  exact (registration_sets_flags sample_location sample_hash "123456"
           (fun _ _ => true) "user" registration_form (proxied "10.0.0.1")
           1%N 20%N empty_db "123456" db_registered eq_refl).
Defined.

Lemma email_registers_once_witness :
  register_new_user sample_location sample_hash "654321" (fun _ _ => true)
    "company" registration_form (proxied "10.0.0.2") 2%N 21%N db_registered
  = (Raise UserAlreadyExists, db_registered).
Proof.
  exact (proj1 (email_registers_once sample_location sample_hash "654321"
                  (fun _ _ => true) "company" registration_form
                  (proxied "10.0.0.2") 2%N 21%N db_registered "10.0.0.2"
                  eq_refl)
           (ex_intro _ registered_u1 eq_refl)).
Defined.

Lemma failed_registration_state_witness :
  exists ip new_user,
    get_ip_address (proxied "10.0.0.1") = Ok (Some ip)
    /\ User.uid new_user = 1%N
    /\ User.email new_user = "u1@example.org"
    /\ db_registered
       = mkDB (users empty_db ++ [new_user])
           (known_ips empty_db ++ [KnownIps.mk 20%N ip (Some 1%N)])
           (banned_ips empty_db).
Proof.
  exact (proj2 (proj2 (failed_registration_state sample_location sample_hash
                         "123456" redis_down "user" registration_form
                         (proxied "10.0.0.1") 1%N 20%N empty_db RedisError
                         db_registered eq_refl)) eq_refl).
Defined.

Lemma head_filter_snoc_fresh {R} (cond : R -> Prop)
    `{!forall r, Decision (cond r)} (l : list R) (row : R) :
  head (filter cond l) = None -> cond row ->
  head (filter cond (l ++ [row])) = Some row.
Proof.
  intros Hnone Hrow. apply head_None in Hnone.
  by rewrite filter_app, Hnone, (filter_cons_True _ _ _ Hrow).
Qed.

(** X18: registration and login compose: on a store that satisfies the
    constraints of the tables, and with a hash check that accepts the
    hash of the password it is given, the account that a completed
    [register_new_user] created is logged in by [authenticate_user] with
    the same form from the same request. *)
Theorem registered_user_can_log_in
    get_location generateHashKey verification_code store_verification_code
    verifyHashKey permission form_data request user_uid ip_uid db code db' :
  consistent db ->
  (forall password, verifyHashKey password (generateHashKey password) = true) ->
  register_new_user get_location generateHashKey verification_code
    store_verification_code permission form_data request user_uid ip_uid db
  = (Ok code, db') ->
  exists new_user,
    User.uid new_user = user_uid
    /\ authenticate_user verifyHashKey form_data request db'
       = (LoggedIn new_user, db').
Proof.
  intros Hdb Hhash Hreg.
  apply register_new_user_run in Hreg as [[_ Ho]|Hreg].
  { destruct Ho as [?|[?|[?|?]]]; done. }
  destruct Hreg
    as (ip & new_user & Hip & Hnone & Hfresh & Hu & He & Hh & _ & _ & _ & Hrows).
  destruct Hrows as [[_ ?]|[-> _]]; [done|].
  exists new_user. split; [done|].
  erewrite authenticate_user_found; cycle 1.
  { unfold user_by_email. simpl. by apply head_filter_snoc_fresh. }
  rewrite (does_ip_exist_trusted _ new_user request ip Hip).
  - by rewrite Hh, Hhash.
  - eexists. split; [simpl; apply elem_of_app; right; left|].
    simpl. by rewrite Hu.
  - intros (b & Hin & Hb & _). simpl in Hin.
    apply (banned_refs _ Hdb) in Hin. rewrite Hb, Hu in Hin. done.
Qed.

Lemma registered_user_can_log_in_witness :
  exists new_user,
    User.uid new_user = 1%N
    /\ authenticate_user sample_verify registration_form (proxied "10.0.0.1")
         db_registered
       = (LoggedIn new_user, db_registered).
Proof.
  refine (registered_user_can_log_in sample_location sample_hash "123456"
            (fun _ _ => true) sample_verify "user" registration_form
            (proxied "10.0.0.1") 1%N 20%N empty_db "123456" db_registered
            empty_db_consistent _ eq_refl).
  intros password. unfold sample_verify, sample_hash. apply String.eqb_refl.
Defined.

(** ** Lifting a ban *)

Lemma remove_banned_ip_run user ip db :
  (exists row,
      head (filter (fun b => BannedIps.ip b = ip
                             /\ BannedIps.userUid b = Some (User.uid user))
              (banned_ips db)) = Some row
      /\ row ∈ banned_ips db /\ bans user ip row
      /\ remove_banned_ip user ip db
         = (Ok tt,
            mkDB (users db) (known_ips db)
              (filter (fun b => BannedIps.uid b ≠ BannedIps.uid row)
                 (banned_ips db))))
  \/ (~ banned db user ip /\ remove_banned_ip user ip db = (Ok tt, db)).
Proof.
  unfold remove_banned_ip, select_first, delete_banned_ip.
  unfold mbind, session_bind. cbv beta.
  destruct (head (filter _ (banned_ips db))) as [row|] eqn:Hrow.
  - left. exists row. split; [done|].
    apply head_Some_elem_of, list_elem_of_filter in Hrow as [[Hi Hu] Hin].
    by repeat split.
  - right. split; [|done]. intros (b & Hin & Hu & Hi).
    by destruct (proj1 (head_filter_none _ _) Hrow b Hin).
Qed.

(** X19: [remove_banned_ip] always returns, touches neither the users
    nor the Known-IP rows, adds no ban, and writes nothing when the
    address is not banned for the user. *)
Theorem remove_banned_ip_frame user ip db :
  exists db',
    remove_banned_ip user ip db = (Ok tt, db')
    /\ users db' = users db
    /\ known_ips db' = known_ips db
    /\ (forall b, b ∈ banned_ips db' -> b ∈ banned_ips db)
    /\ (~ banned db user ip -> db' = db).
Proof.
  destruct (remove_banned_ip_run user ip db)
    as [(row & _ & Hin & Hb & ->)|[Hnb ->]].
  - eexists. split; [done|]. simpl. repeat split.
    + by intros b [_ ?]%list_elem_of_filter.
    + intros Hnb. destruct Hnb. exists row. by destruct Hb.
  - by exists db.
Qed.

(** X20: one call removes the rows of one key: the address is still
    banned for the user afterwards exactly when the store held two ban
    rows for the pair under different keys. *)
Theorem ban_survives_iff_entered_twice user ip db :
  banned (remove_banned_ip user ip db).2 user ip
  <-> exists b1 b2,
        b1 ∈ banned_ips db /\ b2 ∈ banned_ips db
        /\ bans user ip b1 /\ bans user ip b2
        /\ BannedIps.uid b1 ≠ BannedIps.uid b2.
Proof.
  destruct (remove_banned_ip_run user ip db)
    as [(row & _ & Hin & Hrow & ->)|[Hnb ->]]; simpl.
  - split.
    + intros (b & [Hne Hb]%list_elem_of_filter & Hu & Hi).
      exists b, row.
      split; [done|]. split; [done|]. split; [by split|]. by split.
    + intros (b1 & b2 & H1 & H2 & [Hu1 Hi1] & [Hu2 Hi2] & Hne).
      destruct (decide (BannedIps.uid b1 = BannedIps.uid row)) as [E|E].
      * exists b2. split; [|done]. apply list_elem_of_filter.
        split; [congruence|done].
      * exists b1. split; [|done]. by apply list_elem_of_filter.
  - split; [done|].
    intros (b1 & _ & H1 & _ & [Hu Hi] & _). destruct Hnb. by exists b1.
Qed.

Lemma ban_survives_iff_entered_twice_witness :
  banned (remove_banned_ip u1 "10.0.0.9" db_banned_twice).2 u1 "10.0.0.9".
Proof.
  refine (proj2 (ban_survives_iff_entered_twice u1 "10.0.0.9" db_banned_twice) _).
  exists (BannedIps.mk 10%N "10.0.0.9" (Some 1%N)),
         (BannedIps.mk 11%N "10.0.0.9" (Some 1%N)).
  split; [left|]. split; [right; left|].
  split; [done|]. split; [done|]. discriminate.
Defined.

Lemma remove_banned_ip_frame_witness :
  exists db',
    remove_banned_ip u1 "10.0.0.1" db_two_users = (Ok tt, db')
    /\ users db' = users db_two_users
    /\ known_ips db' = known_ips db_two_users
    /\ (forall b, b ∈ banned_ips db' -> b ∈ banned_ips db_two_users)
    /\ (~ banned db_two_users u1 "10.0.0.1" -> db' = db_two_users).
Proof. exact (remove_banned_ip_frame u1 "10.0.0.1" db_two_users). Defined.

(** ** Allow-listing and its keys *)

(** X21: [add_allowed_ip] completes exactly when the drawn key is new
    to the Known-IP table and the user has a row; otherwise it raises
    [IntegrityError] and writes nothing.  That the address is already
    known for the user does not matter: the table takes a second row for
    the pair. *)
Theorem add_allowed_ip_outcome user ip new_uid db :
  ((new_uid ∉ KnownIps.uid <$> known_ips db)
   /\ User.uid user ∈ User.uid <$> users db ->
   add_allowed_ip user ip new_uid db
   = (Ok user,
      mkDB (users db)
        (known_ips db ++ [KnownIps.mk new_uid ip (Some (User.uid user))])
        (banned_ips db)))
  /\ (new_uid ∈ KnownIps.uid <$> known_ips db
      \/ User.uid user ∉ User.uid <$> users db ->
      add_allowed_ip user ip new_uid db = (Raise IntegrityError, db)).
Proof.
  unfold add_allowed_ip, insert_known_ip, mbind, session_bind.
  split; intros H; case_decide as Hd; simpl in *; try done; tauto.
Qed.

Lemma add_allowed_ip_outcome_witness :
  add_allowed_ip u1 "10.0.0.9" 23%N db_known_and_banned
  = (Ok u1, db_known_and_banned_again)
  /\ add_allowed_ip u1 "10.0.0.9" 20%N db_known_and_banned
     = (Raise IntegrityError, db_known_and_banned).
Proof.
  split.
  - refine (proj1 (add_allowed_ip_outcome u1 "10.0.0.9" 23%N
                     db_known_and_banned) _).
    split; [|left]. intros Hin. apply list_elem_of_singleton in Hin.
    discriminate Hin.
  - refine (proj2 (add_allowed_ip_outcome u1 "10.0.0.9" 20%N
                     db_known_and_banned) _).
    left. left.
Defined.

(** ** Deleting an account *)

Lemma NoDup_fmap_inj_on {R K} (f : R -> K) (l : list R) (x y : R) :
  NoDup (f <$> l) -> x ∈ l -> y ∈ l -> f x = f y -> x = y.
Proof.
  induction l as [|z l IH]; [by intros _ ?%elem_of_nil|].
  rewrite fmap_cons, NoDup_cons.
  intros [Hz Hl] [->|Hx]%elem_of_cons [->|Hy]%elem_of_cons Hf; auto.
  - destruct Hz. rewrite Hf. by apply list_elem_of_fmap_2.
  - destruct Hz. rewrite <- Hf. by apply list_elem_of_fmap_2.
Qed.

(** X22: [remove_user] takes the account and its IP rows with it and
    leaves every other account as it was: afterwards no row of [users]
    has the key, no address is known or banned for the user, the rows
    and the trust of a user of another key are unchanged, and, on a
    store that satisfies the constraints, the e-mail of a removed user
    resolves to [UserNotFound]. *)
Theorem remove_user_cascades user db :
  exists db',
    remove_user user db = (Ok tt, db')
    /\ (User.uid user ∉ User.uid <$> users db')
    /\ (forall ip, ~ known db' user ip /\ ~ banned db' user ip)
    /\ (forall other,
           User.uid other ≠ User.uid user ->
           (other ∈ users db' <-> other ∈ users db)
           /\ forall ip, (known db' other ip <-> known db other ip)
                         /\ (banned db' other ip <-> banned db other ip))
    /\ (consistent db -> user ∈ users db ->
        forall request,
          does_user_exist (Some (User.email user)) None request db'
          = (Raise UserNotFound, db')).
Proof.
  eexists. split; [reflexivity|]. split; [|split; [|split]].
  - simpl. intros (row & Hu & [Hne _]%list_elem_of_filter)%list_elem_of_fmap.
    congruence.
  - intros ip. split.
    + intros (k & [Hne _]%list_elem_of_filter & Hu & _). done.
    + intros (b & [Hne _]%list_elem_of_filter & Hu & _). done.
  - intros other Hne. split.
    + simpl. rewrite list_elem_of_filter. tauto.
    + intros ip. unfold known, banned. simpl. split; split.
      * intros (k & [_ Hin]%list_elem_of_filter & Hk). by exists k.
      * intros (k & Hin & Hu & Hi). exists k. split; [|done].
        apply list_elem_of_filter. split; [congruence|done].
      * intros (b & [_ Hin]%list_elem_of_filter & Hb). by exists b.
      * intros (b & Hin & Hu & Hi). exists b. split; [|done].
        apply list_elem_of_filter. split; [congruence|done].
  - intros Hdb Huser request.
    unfold does_user_exist, select_first, raise.
    unfold mbind, session_bind. cbv beta.
    replace (head (filter _ (users _))) with (@None User.t); [done|].
    symmetry. apply head_filter_none.
    intros row [Hne Hin]%list_elem_of_filter He. apply Hne.
    by rewrite (NoDup_fmap_inj_on User.email (users db) row user
                  (user_emails _ Hdb) Hin Huser He).
Qed.

(** The constraints of a given store, by evaluation. *)
Lemma consistent_by_checks db :
  NoDup (User.uid <$> users db) ->
  NoDup (User.email <$> users db) ->
  NoDup (KnownIps.uid <$> known_ips db) ->
  NoDup (BannedIps.uid <$> banned_ips db) ->
  Forall (fun k => user_ref_ok db (KnownIps.userUid k)) (known_ips db) ->
  Forall (fun b => user_ref_ok db (BannedIps.userUid b)) (banned_ips db) ->
  consistent db.
Proof.
  intros ? ? ? ? Hk Hb.
  split; try done; intros row Hin.
  - by apply (proj1 (Forall_forall _ _) Hk).
  - by apply (proj1 (Forall_forall _ _) Hb).
Qed.

Ltac check_consistent :=
  apply consistent_by_checks; apply (bool_decide_unpack _); vm_compute; exact I.

Lemma db_two_accounts_consistent : consistent db_two_accounts.
Proof. check_consistent. Qed.

Lemma remove_user_cascades_witness :
  does_user_exist (Some "u2@example.org") None (proxied "10.0.0.7")
    db_first_account_only
  = (Raise UserNotFound, db_first_account_only).
Proof.
  destruct (remove_user_cascades u2 db_two_accounts)
    as (db' & Hrun & _ & _ & _ & Hgone).
  injection Hrun as <-.
  refine (Hgone db_two_accounts_consistent _ (proxied "10.0.0.7")).
  right. left.
Defined.

(** ** The views on the IP rows *)

Lemma not_permitted_spec user uid :
  not_permitted user uid = true
  <-> User.uid user ≠ uid /\ User.isSuperuser user = false.
Proof.
  unfold not_permitted. rewrite andb_true_iff, bool_decide_eq_true.
  destruct (User.isSuperuser user); simpl; intuition congruence.
Qed.

(** X23: a user who is no superuser reaches only the own account: on
    another key [get_user_profile], [add_new_ip_address] and
    [unban_new_ip_address] raise [InsufficientPermission] and write
    nothing. *)
Theorem views_refuse_other_accounts user uid db :
  User.uid user ≠ uid ->
  User.isSuperuser user = false ->
  get_user_profile uid user db = (Raise InsufficientPermission, db)
  /\ (forall form_ip new_uid,
         add_new_ip_address uid form_ip new_uid user db
         = (Raise InsufficientPermission, db))
  /\ (forall ip,
         unban_new_ip_address uid ip user db
         = (Raise InsufficientPermission, db)).
Proof.
  intros Hne Hs.
  assert (Hg : not_permitted user uid = true) by by apply not_permitted_spec.
  unfold get_user_profile, add_new_ip_address, unban_new_ip_address.
  by rewrite Hg.
Qed.

(** X24: for the own account, and for a superuser on any key, the view
    [add_new_ip_address] is [add_allowed_ip] on the row of the key: with
    a new key for the row it returns its message and the address is known
    for that account afterwards; on a key without a row it raises
    [AttributeError] and writes nothing. *)
Theorem add_new_ip_address_effect user uid form_ip new_uid db :
  User.uid user = uid \/ User.isSuperuser user = true ->
  (forall target,
      user_by_uid db uid = Some target ->
      new_uid ∉ KnownIps.uid <$> known_ips db ->
      exists db',
        add_new_ip_address uid form_ip new_uid user db
        = (Ok {[ "message" := VStr (form_ip +:+ " added to known IPs") ]}, db')
        /\ known_ips db'
           = known_ips db ++ [KnownIps.mk new_uid form_ip (Some uid)]
        /\ users db' = users db /\ banned_ips db' = banned_ips db
        /\ known db' target form_ip)
  /\ (user_by_uid db uid = None ->
      add_new_ip_address uid form_ip new_uid user db
      = (Raise AttributeError, db)).
Proof.
  intros Hauth.
  assert (Hg : not_permitted user uid = false).
  { destruct (not_permitted user uid) eqn:E; [|done].
    apply not_permitted_spec in E as [? ?]. destruct Hauth; congruence. }
  unfold add_new_ip_address, get_user_by_email_or_uid, select_first, on_user,
    add_allowed_ip, insert_known_ip, user_by_uid.
  rewrite Hg. unfold mbind, session_bind. cbv beta. split.
  - intros target Hrow Hfresh. rewrite Hrow.
    apply head_Some_elem_of, list_elem_of_filter in Hrow as [Hu Hin].
    case_decide as Hd; simpl.
    { destruct Hd as [?|Hd]; [done|]. destruct Hd. simpl.
      by apply list_elem_of_fmap_2. }
    eexists. split; [reflexivity|]. simpl. rewrite Hu.
    repeat split. eexists. split; [apply elem_of_app; right; left|].
    simpl. by rewrite Hu.
  - intros Hrow. by rewrite Hrow.
Qed.

(** X25: an account cannot allow-list an address from that address: on
    the route [POST /{uid}/allow-ips], when the client address of the
    request is not known for the caller, [UnknownIpConflict] is raised and
    nothing is written, whichever key and address are submitted. *)
Theorem allow_ips_route_needs_known_address
    token_details request uid form_ip new_uid db e user ip :
  token_email token_details e ->
  user_by_email db e = Some user ->
  get_ip_address request = Ok (Some ip) ->
  ~ known db user ip ->
  allow_ips_route token_details request uid form_ip new_uid db
  = (Raise UnknownIpConflict, db).
Proof.
  intros Ht Hrow Hip Hk. unfold allow_ips_route.
  unfold mbind at 1, session_bind.
  by rewrite (get_current_user_resolved _ _ _ _ _ Ht Hrow),
    (does_ip_exist_unknown _ _ _ _ Hip Hk).
Qed.

(** ** The response to an unknown address *)

(** X26: the 407 response names the address to allow-list: whenever
    [does_ip_exist] raises [UnknownIpConflict], the handler returns status
    407 with the resolved client address under [ip], that address has no
    Known-IP row of the user, and once [add_allowed_ip] has completed for
    it the same request no longer raises [UnknownIpConflict]. *)
Theorem conflict_response_names_the_address user request db :
  (does_ip_exist user request db).1 = Raise UnknownIpConflict ->
  exists ip response,
    UnknownIpConflictError request = Ok response
    /\ status_code response = 407%Z
    /\ content response !! "ip" = Some (VStr ip)
    /\ content response !! "error_code" = Some (VStr "proxy_conflict")
    /\ get_ip_address request = Ok (Some ip)
    /\ ~ known db user ip
    /\ forall new_uid r db',
         add_allowed_ip user ip new_uid db = (Ok r, db') ->
         (does_ip_exist user request db').1 <> Raise UnknownIpConflict.
Proof.
  intros Hraise.
  assert (Hret : exists ip, get_ip_address request = Ok (Some ip)).
  { destruct (get_ip_address request) as [chosen|e] eqn:Hip.
    - destruct (get_ip_address_returned _ _ Hip) as (ip & -> & _). eauto.
    - exfalso. unfold does_ip_exist, lift in Hraise.
      unfold mbind, session_bind in Hraise. rewrite Hip in Hraise.
      apply get_ip_address_raised in Hip as [-> _]. discriminate Hraise. }
  destruct Hret as [ip Hip].
  exists ip. eexists. unfold UnknownIpConflictError. rewrite Hip. simpl.
  split; [reflexivity|]. simpl.
  split; [done|]. split; [done|]. split; [done|]. split; [done|].
  destruct (does_ip_exist_cases db user request ip Hip)
    as [(Hk & _)|[(_ & _ & E)|(_ & _ & E)]];
    try (rewrite E in Hraise; discriminate Hraise).
  split; [done|].
  intros new_uid r db' Hadd.
  apply add_allowed_ip_completed in Hadd as [_ ->].
  apply (does_ip_exist_known _ _ _ ip Hip).
  eexists. split; [apply elem_of_app; right; left|]. done.
Qed.

Lemma views_refuse_other_accounts_witness :
  get_user_profile 2%N u1 db_two_accounts
  = (Raise InsufficientPermission, db_two_accounts)
  /\ (forall form_ip new_uid,
         add_new_ip_address 2%N form_ip new_uid u1 db_two_accounts
         = (Raise InsufficientPermission, db_two_accounts))
  /\ (forall ip,
         unban_new_ip_address 2%N ip u1 db_two_accounts
         = (Raise InsufficientPermission, db_two_accounts)).
Proof.
  refine (views_refuse_other_accounts u1 2%N db_two_accounts _ eq_refl).
  discriminate.
Defined.

Lemma add_new_ip_address_effect_witness :
  (exists db',
      add_new_ip_address 1%N "10.0.0.2" 21%N u1 db_two_users
      = (Ok {[ "message" := VStr ("10.0.0.2" +:+ " added to known IPs") ]}, db')
      /\ known_ips db'
         = known_ips db_two_users ++ [KnownIps.mk 21%N "10.0.0.2" (Some 1%N)]
      /\ users db' = users db_two_users
      /\ banned_ips db' = banned_ips db_two_users
      /\ known db' u1 "10.0.0.2")
  /\ add_new_ip_address 5%N "10.0.0.2" 21%N root db_root
     = (Raise AttributeError, db_root).
Proof.
  split.
  - refine (proj1 (add_new_ip_address_effect u1 1%N "10.0.0.2" 21%N
                     db_two_users (or_introl eq_refl)) u1 eq_refl _).
    intros Hin. apply list_elem_of_singleton in Hin. discriminate Hin.
  - exact (proj2 (add_new_ip_address_effect root 5%N "10.0.0.2" 21%N db_root
                    (or_intror eq_refl)) eq_refl).
Defined.

Lemma allow_ips_route_needs_known_address_witness :
  allow_ips_route access_claims (proxied "10.0.0.2") 1%N "10.0.0.2" 21%N
    db_two_users
  = (Raise UnknownIpConflict, db_two_users).
Proof.
  refine (allow_ips_route_needs_known_address access_claims
            (proxied "10.0.0.2") 1%N "10.0.0.2" 21%N db_two_users
            "u1@example.org" u1 "10.0.0.2" access_claims_subject
            eq_refl eq_refl _).
  intros (k & Hin & _ & Hi).
  apply list_elem_of_singleton in Hin. subst k. discriminate Hi.
Defined.

Lemma conflict_response_names_the_address_witness :
  exists ip response,
    UnknownIpConflictError (proxied "10.0.0.2") = Ok response
    /\ status_code response = 407%Z
    /\ content response !! "ip" = Some (VStr ip)
    /\ content response !! "error_code" = Some (VStr "proxy_conflict")
    /\ get_ip_address (proxied "10.0.0.2") = Ok (Some ip)
    /\ ~ known db_registered registered_u1 ip
    /\ forall new_uid r db',
         add_allowed_ip registered_u1 ip new_uid db_registered = (Ok r, db') ->
         (does_ip_exist registered_u1 (proxied "10.0.0.2") db').1
         <> Raise UnknownIpConflict.
Proof.
  exact (conflict_response_names_the_address registered_u1
           (proxied "10.0.0.2") db_registered eq_refl).
Defined.

(** ** Who writes the IP rows *)

Lemma get_user_by_email_or_uid_read_only email uid :
  read_only (get_user_by_email_or_uid email uid).
Proof. by destruct email, uid. Qed.

Lemma authenticate_user_read_only verifyHashKey form_data request db :
  (authenticate_user verifyHashKey form_data request db).2 = db.
Proof.
  destruct (user_by_email db (UserCreateOrLoginSchema.email form_data))
    as [user|] eqn:Hrow.
  - rewrite (authenticate_user_found _ _ _ _ _ Hrow).
    pose proof (does_ip_exist_read_only user request db) as Hro.
    destruct (does_ip_exist user request db) as [[[]|e] db']; simpl in *;
      [|done]. by destruct (verifyHashKey _ _).
  - by rewrite (authenticate_user_no_row _ _ _ _ Hrow).
Qed.

(** What [add_banned_ip] commits, whatever the append after the commit
    comes to. *)
Lemma add_banned_ip_commits append_to_known_ips user ip new_uid db :
  new_uid ∉ BannedIps.uid <$> banned_ips db ->
  User.uid user ∈ User.uid <$> users db ->
  (add_banned_ip append_to_known_ips user ip new_uid db).2
  = mkDB (users db) (known_ips db)
      (banned_ips db ++ [BannedIps.mk new_uid ip (Some (User.uid user))]).
Proof.
  intros Hfresh Huser.
  unfold add_banned_ip, insert_banned_ip, lift, mbind, session_bind.
  rewrite decide_False; cycle 1.
  { intros [?|Href]; [done|]. by apply Href. }
  by destruct append_to_known_ips.
Qed.

(** C8, as the code has it: [does_user_exist], [does_ip_exist] and
    [get_current_user] leave the three tables as they found them, on
    every input, returning or raising; of the operations on the tables
    only [add_allowed_ip], [add_banned_ip], [remove_banned_ip],
    [register_new_user] and [remove_user] change an IP row, and each of
    them does: the two additions and the registration append their row,
    the unban of a banned address deletes a row, and the removal of an
    account deletes its IP rows. *)
Theorem ip_rows_change_only_by_writers :
  (forall db request email uid user token_details,
      (does_user_exist email uid request db).2 = db
      /\ (does_ip_exist user request db).2 = db
      /\ (get_current_user token_details request db).2 = db)
  /\ (forall op db, ip_rows_changed op db -> writes_ip_rows op = true)
  /\ (forall user ip new_uid db,
         new_uid ∉ KnownIps.uid <$> known_ips db ->
         User.uid user ∈ User.uid <$> users db ->
         known_ips (final_store (AddAllowedIp user ip new_uid) db)
         = known_ips db ++ [KnownIps.mk new_uid ip (Some (User.uid user))])
  /\ (forall append_to_known_ips user ip new_uid db,
         new_uid ∉ BannedIps.uid <$> banned_ips db ->
         User.uid user ∈ User.uid <$> users db ->
         banned_ips
           (final_store (AddBannedIp append_to_known_ips user ip new_uid) db)
         = banned_ips db ++ [BannedIps.mk new_uid ip (Some (User.uid user))])
  /\ (forall user ip db,
         banned db user ip ->
         length (banned_ips (final_store (RemoveBannedIp user ip) db))
         < length (banned_ips db))
  /\ (forall get_location generateHashKey verification_code
             store_verification_code permission form_data request
             user_uid ip_uid db ip location,
         get_ip_address request = Ok (Some ip) ->
         user_by_email db (UserCreateOrLoginSchema.email form_data) = None ->
         get_location ip = Some location ->
         user_uid ∉ User.uid <$> users db ->
         ip_uid ∉ KnownIps.uid <$> known_ips db ->
         store_verification_code user_uid verification_code = true ->
         known_ips
           (final_store
              (RegisterNewUser get_location generateHashKey verification_code
                 store_verification_code permission form_data request
                 user_uid ip_uid) db)
         = known_ips db ++ [KnownIps.mk ip_uid ip (Some user_uid)])
  /\ (forall user ip db,
         known db user ip \/ banned db user ip ->
         ip_rows_changed (RemoveUser user) db).
Proof.
  split; [|split; [|split; [|split; [|split; [|split]]]]].
  - intros. split; [|split].
    + apply does_user_exist_read_only.
    + apply does_ip_exist_read_only.
    + apply get_current_user_read_only.
  - intros op db Hch. destruct op; try reflexivity; exfalso;
      unfold ip_rows_changed in Hch; simpl in Hch.
    + rewrite does_user_exist_read_only in Hch. tauto.
    + rewrite does_ip_exist_read_only in Hch. tauto.
    + rewrite get_current_user_read_only in Hch. tauto.
    + rewrite get_user_by_email_or_uid_read_only in Hch. tauto.
    + rewrite authenticate_user_read_only in Hch. tauto.
  - intros user ip new_uid db Hfresh Huser. simpl.
    destruct (add_allowed_ip_completes user ip new_uid db Hfresh Huser)
      as [db' Hadd].
    rewrite Hadd. by apply add_allowed_ip_completed in Hadd as [_ ->].
  - intros outcome user ip new_uid db Hfresh Huser. simpl.
    by rewrite add_banned_ip_commits.
  - intros user ip db Hb. simpl.
    destruct (remove_banned_ip_run user ip db)
      as [(row & _ & Hin & _ & ->)|[Hnb _]]; [|done]. simpl.
    apply (length_filter_lt _ _ row); [done|]. by intros Hne.
  - intros * Hip Hfree Hloc Hu Hk Hstore. simpl.
    destruct (register_new_user_completes get_location generateHashKey
                verification_code store_verification_code permission
                form_data request user_uid ip_uid db ip location
                Hip Hfree Hloc Hu Hk Hstore) as (new_user & _ & _ & ->).
    done.
  - intros user ip db Hrows. unfold ip_rows_changed. simpl.
    destruct Hrows as [(k & Hin & Hu & _)|(b & Hin & Hu & _)].
    + left. intros Heq. rewrite <- Heq in Hin.
      by apply list_elem_of_filter in Hin as [Hne _].
    + right. intros Heq. rewrite <- Heq in Hin.
      by apply list_elem_of_filter in Hin as [Hne _].
Qed.

(** C8 as the spec states it (IP rows are mutated only by
    [add_allowed_ip], [add_banned_ip] and [remove_banned_ip]) fails: the
    registration of the example appends a Known-IP row. *)
Lemma ip_rows_only_by_management_fails :
  ~ ((forall db request email uid user token_details,
         (does_user_exist email uid request db).2 = db
         /\ (does_ip_exist user request db).2 = db
         /\ (get_current_user token_details request db).2 = db)
     /\ (forall op db, ip_rows_changed op db -> management op = true)).
Proof.
  intros [_ Honly].
  specialize (Honly (RegisterNewUser sample_location sample_hash "123456"
                       (fun _ _ => true) "user" registration_form
                       (proxied "10.0.0.1") 1%N 20%N) empty_db).
  simpl in Honly. assert (false = true); [|done].
  apply Honly. left. vm_compute. discriminate.
Qed.

Lemma ip_rows_change_only_by_writers_witness :
  banned_ips (final_store (AddBannedIp (Ok tt) u1 "10.0.0.9" 13%N) db_two_users)
  = banned_ips db_two_users ++ [BannedIps.mk 13%N "10.0.0.9" (Some 1%N)]
  /\ length (banned_ips
               (final_store (RemoveBannedIp u1 "10.0.0.9") db_two_users_banned))
     < length (banned_ips db_two_users_banned)
  /\ ip_rows_changed (RemoveUser u1) db_two_users_banned
  /\ writes_ip_rows (RemoveUser u1) = true.
Proof.
  pose proof ip_rows_change_only_by_writers
    as (_ & Honly & _ & Hban & Hunban & _ & Hremove).
  assert (Hb : banned db_two_users_banned u1 "10.0.0.9").
  { exact (banned_first_row db_two_users_banned u1 "10.0.0.9" _ _
             eq_refl eq_refl eq_refl). }
  split; [|split; [|split]].
  - apply Hban; [apply no_key_in_empty_table | left].
  - by apply Hunban.
  - apply (Hremove u1 "10.0.0.9"). by right.
  - apply (Honly _ db_two_users_banned). apply (Hremove u1 "10.0.0.9").
    by right.
Defined.
